(** * ModelNet dataset adapters (kaolin/datasets/modelnet.py)

    A shallow embedding of the three dataset classes of the module,
    [ModelNet], [ModelNetPointCloud] and [ModelNetVoxels], and the
    properties of their constructors, [__len__] and [__getitem__].

    Conventions.
    - A Python call either returns or raises: [result A].
    - The file system is an explicit value [filesystem]; the two numeric
      libraries the module calls (kaolin's mesh reader and sampler, torch's
      device placement, scipy's loadmat) are parameters of Section
      [Adapters].
    - [basedir] is taken after the conversion [Path(basedir)], as the list
      of its components; [basedir / cat / split] appends two components.
    - [rep], [split] and the category names are strings. *)

From Stdlib Require Import ZArith Ascii String List Bool Lia.
From stdpp Require Import gmap strings list sorting.

Local Open Scope string_scope.
Local Open Scope list_scope.
Local Open Scope nat_scope.
Set Warnings "-register-all".

(** ** Exceptions and results *)

(** What a [ValueError] of the constructors complains about. *)
Inductive invalid_argument :=
| BadRep (rep : string)
| BadSplit (split : string)
| BadClass (cat : string) (avail : list string).

Inductive exn :=
| ValueError (why : invalid_argument)
| ChoiceError                      (* ValueError of np.random.choice *)
| NameError (name : string)
| AssertionError (msg : string)
| IndexError
| KeyError (key : string)
| AttributeError (name : string)
| TypeError
| NotImplementedError
| UnboundLocalError (name : string)
| OSError (path : list string)     (* a failing file-system call *)
| LibraryError (code : nat).       (* raised inside a library or a transform *)

Inductive result (A : Type) :=
| Return (a : A)
| Raise (e : exn).
Arguments Return {A} a.
Arguments Raise {A} e.

Definition bind {A B} (r : result A) (k : A -> result B) : result B :=
  match r with
  | Return a => k a
  | Raise e => Raise e
  end.

Notation "x <- r ;; k" := (bind r (fun x => k))
  (at level 100, r at next level, right associativity).

(** A list comprehension whose body can raise. *)
Fixpoint mapM_result {A B} (f : A -> result B) (l : list A) : result (list B) :=
  match l with
  | [] => Return []
  | a :: l' => b <- f a ;; bs <- mapM_result f l' ;; Return (b :: bs)
  end.

Definition is_raise {A} (r : result A) : bool :=
  match r with Raise _ => true | Return _ => false end.

(** The errors the constructors raise to reject an argument: the
    [ValueError]s of [ModelNet] and [ModelNetPointCloud], and the failed
    [assert]s of [ModelNetVoxels]. *)
Definition is_validation_error (e : exn) : bool :=
  match e with
  | ValueError _ | AssertionError _ => true
  | _ => false
  end.

(** ** Python list indexing: [l[i]] with negative indices counted from the
    end, [IndexError] out of range. *)
Definition py_index {A} (l : list A) (i : Z) : result A :=
  let n := Z.of_nat (length l) in
  let j := if (i <? 0)%Z then (n + i)%Z else i in
  if ((0 <=? j)%Z && (j <? n)%Z)%bool then
    match l !! Z.to_nat j with
    | Some a => Return a
    | None => Raise IndexError
    end
  else Raise IndexError.

Definition valid_index {A} (l : list A) (i : Z) : Prop :=
  (- Z.of_nat (length l) <= i < Z.of_nat (length l))%Z.

(** ** The file system *)

Definition Path := list string.

Record dirent := { d_name : string; d_is_dir : bool }.

Record filesystem := {
  (* Path.iterdir(): the entries of a directory, or an OSError *)
  iterdir : Path -> result (list dirent);
  (* Path.glob(pattern): the matches, none for a missing directory *)
  path_glob : Path -> string -> list Path
}.

(** [[d.name for d in basedir.iterdir() if d.is_dir()]] *)
Definition avail_categories_of (entries : list dirent) : list string :=
  d_name <$> filter (fun d => d_is_dir d = true) entries.

(** ** The scan shared by [ModelNet.__init__] and
    [ModelNetPointCloud.__init__] (lines 76-83 and 135-142). *)

(** [for path in catdir.glob('*.off'): paths.append(path); labels.append(idx)] *)
Definition append_matches (idx : nat) (found : list Path)
    (acc : list Path * list nat) : list Path * list nat :=
  foldl (fun a p => (a.1 ++ [p], a.2 ++ [idx])) acc found.

(** [for idx, cat in enumerate(self.categories): ...], started at [idx]. *)
Fixpoint scan_categories (fs : filesystem) (basedir : Path) (split : string)
    (avail : list string) (idx : nat) (cats : list string)
    (acc : list Path * list nat) : result (list Path * list nat) :=
  match cats with
  | [] => Return acc
  | cat :: rest =>
      if bool_decide (cat ∈ avail) then
        let catdir := basedir ++ [cat; split] in
        scan_categories fs basedir split avail (S idx) rest
          (append_matches idx (path_glob fs catdir "*.off") acc)
      else Raise (ValueError (BadClass cat avail))
  end.

(** [categories or avail_categories]: [None] and the empty list are falsy. *)
Definition categories_or (categories : option (list string))
    (avail : list string) : list string :=
  match categories with
  | None => avail
  | Some [] => avail
  | Some cs => cs
  end.

(** ** [np.random.choice(n, size=k, replace=False)]

    numpy's legacy generator answers this call with
    [permutation(n)[:k]], where [permutation] shuffles [arange(n)] in place
    by [for i in reversed(range(1, n)): j = random_interval(i);
    x[i], x[j] = x[j], x[i]], and raises a [ValueError] when [k > n].  The
    generator's entropy is a tape of raw draws; [random_interval max]
    reduces the next draw to [0..max] (an exhausted tape yields 0). *)
Definition np_state := list nat.

Definition random_interval (max : nat) (st : np_state) : nat * np_state :=
  match st with
  | [] => (0, [])
  | r :: st' => ((r mod S max)%nat, st')
  end.

(** [x[i], x[j] = x[j], x[i]] *)
Definition swap (x : list nat) (i j : nat) : list nat :=
  match x !! i, x !! j with
  | Some a, Some b => <[i:=b]> (<[j:=a]> x)
  | _, _ => x
  end.

(** The shuffle loop at [i], [i-1], ..., [1]. *)
Fixpoint shuffle_from (i : nat) (x : list nat) (st : np_state)
    : list nat * np_state :=
  match i with
  | 0 => (x, st)
  | S i' =>
      let (j, st') := random_interval i st in
      shuffle_from i' (swap x i j) st'
  end.

Definition np_permutation (n : nat) (st : np_state) : list nat * np_state :=
  shuffle_from (n - 1) (seq 0 n) st.

Definition np_random_choice (n size : nat) (st : np_state)
    : result (list nat) * np_state :=
  if (n <? size)%nat then (Raise ChoiceError, st)
  else
    let (perm, st') := np_permutation n st in
    (Return (take size perm), st').

(** [t[idxs, :]]: the rows of [t] at [idxs], in that order. *)
Definition index_rows {A} (t : list A) (idxs : list nat) : result (list A) :=
  match mapM (fun i => t !! i) idxs with
  | Some rows => Return rows
  | None => Raise IndexError
  end.

(** ** Strings of [ModelNetVoxels.__getitem__] *)

(** [s.replace(a, b)] for one-character [a] and [b]. *)
Fixpoint replace_char (a b : ascii) (s : string) : string :=
  match s with
  | EmptyString => EmptyString
  | String c s' =>
      String (if Ascii.eqb c a then b else c) (replace_char a b s')
  end.

(** [s.split(sep)] for a one-character separator: [cur] is the piece being
    read, reversed. *)
Fixpoint split_go (sep : ascii) (s : string) (cur : list ascii)
    : list string :=
  match s with
  | EmptyString => [string_of_list_ascii (rev cur)]
  | String c s' =>
      if Ascii.eqb c sep
      then string_of_list_ascii (rev cur) :: split_go sep s' []
      else split_go sep s' (c :: cur)
  end.

Definition str_split (sep : ascii) (s : string) : list string :=
  split_go sep s [].

Definition slash : ascii := "/"%char.
Definition backslash : ascii := "\"%char.

(** ** Names the module can resolve

    The module's import statements (lines 15-23) and its three class
    definitions and one constant bind exactly these global names. *)
Definition module_bound_names : list string :=
  [ "Callable"; "Iterable"; "Optional"; "Union";   (* from typing import ... *)
    "torch"; "sys"; "Path"; "sio"; "np"; "kal";    (* import ... *)
    "_MODELNET10_CLASSES"; "ModelNet"; "ModelNetPointCloud"; "ModelNetVoxels" ].

(** The part of [os] that [ModelNetVoxels.__init__] calls. *)
Record os_module := {
  os_path_exists : string -> bool;
  os_path_basename : string -> string;
  os_path_dirname : string -> string
}.

Inductive pyobject :=
| ObjOs (m : os_module)                    (* the module os *)
| ObjGlob (g : string -> list string)      (* the function glob.glob *)
| ObjOther.

(** A namespace maps a name to the object bound to it, if any. *)
Definition namespace := string -> option pyobject.

(** The module's globals: what [installed] offers, restricted to the names
    the module binds.  (No builtin is called [os] or [glob].) *)
Definition module_globals (installed : namespace) : namespace :=
  fun name =>
    if bool_decide (name ∈ module_bound_names) then installed name else None.

(** Evaluating a global name. *)
Definition load_global (ns : namespace) (name : string) : result pyobject :=
  match ns name with
  | Some o => Return o
  | None => Raise (NameError name)
  end.

(** [os.path]: the object bound to [os] must have the attribute. *)
Definition attr_path (o : pyobject) : result os_module :=
  match o with
  | ObjOs m => Return m
  | _ => Raise (AttributeError "path")
  end.

(** Calling the object bound to [glob]. *)
Definition call_glob (o : pyobject) (pattern : string) : result (list string) :=
  match o with
  | ObjGlob g => Return (g pattern)
  | _ => Raise TypeError
  end.

(** ** The adapters *)

Section Adapters.

(** Values of the libraries: meshes, tensor rows (one row per point),
    arrays read from a .mat file, devices, torch's generator state. *)
Context {Mesh Row Grid Device Gen : Type}.

(** [kal.rep.TriangleMesh.from_off(path)] *)
Variable from_off : Path -> result Mesh.
(** [mesh.sample(n)]: the sampled points (the face choices are dropped by
    both callers), advancing torch's generator. *)
Variable mesh_sample : Mesh -> nat -> Gen -> result (list Row) * Gen.
(** Whether [.to(device)] accepts the device. *)
Variable device_ok : Device -> bool.
(** [sio.loadmat(path)]: the variables of a .mat file by name. *)
Variable loadmat : string -> result (gmap string Grid).
(** [torch.FloatTensor(a.astype(float))] *)
Variable float_tensor : Grid -> result Grid.
(** [sys.platform] *)
Variable platform : string.

(** [x.to(device)] keeps the contents of [x]. *)
Definition to_device {A} (x : A) (d : Device) : result A :=
  if device_ok d then Return x else Raise (LibraryError 1).

(** What [__getitem__] can hand to its caller or to a transform. *)
Inductive pyval :=
| VStr (s : string)
| VMesh (m : Mesh)
| VTensor (rows : list Row)
| VLongTensor (xs : list Z)
| VVoxels (g : Grid)
| VTuple (xs : list pyval)
| VDict (kvs : list (string * pyval)).

Definition callable := pyval -> result pyval.

(** [if self.transform is not None: x = self.transform(x)] *)
Definition apply_transform (transform : option callable) (x : pyval)
    : result pyval :=
  match transform with
  | None => Return x
  | Some f => f x
  end.

(** *** ModelNet *)

Record ModelNet := {
  mn_categories : list string;
  mn_paths : list Path;
  mn_labels : list nat;
  mn_rep : string;
  mn_device : Device;
  mn_transform : option callable;
  mn_num_points : nat
}.

(** [ModelNet.__init__] (lines 52-88); [kwargs] holds the keyword
    arguments that are numbers. *)
Definition ModelNet_init (fs : filesystem) (basedir : Path)
    (rep split : string) (categories : option (list string))
    (device : Device) (transform : option callable)
    (kwargs : gmap string nat) : result ModelNet :=
  if negb (bool_decide (rep ∈ ["mesh"; "pointcloud"])) then
    Raise (ValueError (BadRep rep))
  else if negb (bool_decide (split ∈ ["train"; "test"])) then
    Raise (ValueError (BadSplit split))
  else
    entries <- iterdir fs basedir ;;
    let avail_categories := avail_categories_of entries in
    let cats := categories_or categories avail_categories in
    index <- scan_categories fs basedir split avail_categories 0 cats ([], []) ;;
    Return {| mn_categories := cats;
              mn_paths := index.1;
              mn_labels := index.2;
              mn_rep := rep;
              mn_device := device;
              mn_transform := transform;
              mn_num_points := default 1024 (kwargs !! "num_points") |}.

(** [ModelNet.__len__] *)
Definition ModelNet_len (self : ModelNet) : nat := length (mn_paths self).

(** [ModelNet.__getitem__] (lines 94-110), with torch's generator passed
    through. *)
Definition ModelNet_getitem (self : ModelNet) (gen : Gen) (idx : Z)
    : result pyval * Gen :=
  match
    (path <- py_index (mn_paths self) idx ;;
     mesh <- from_off path ;;
     mesh <- to_device mesh (mn_device self) ;;
     l <- py_index (mn_labels self) idx ;;
     label <- to_device [Z.of_nat l] (mn_device self) ;;
     Return (mesh, label))
  with
  | Raise e => (Raise e, gen)
  | Return (mesh, label) =>
      if String.eqb (mn_rep self) "mesh" then
        (mesh <- apply_transform (mn_transform self) (VMesh mesh) ;;
         Return (VTuple [mesh; VLongTensor label]), gen)
      else if String.eqb (mn_rep self) "pointcloud" then
        match mesh_sample mesh (mn_num_points self) gen with
        | (Raise e, gen') => (Raise e, gen')
        | (Return pts, gen') =>
            (pts <- apply_transform (mn_transform self) (VTensor pts) ;;
             Return (VTuple [pts; VLongTensor label]), gen')
        end
      else (Raise NotImplementedError, gen)
  end.

(** *** ModelNetPointCloud *)

Record ModelNetPointCloud := {
  pc_categories : list string;
  pc_paths : list Path;
  pc_labels : list nat;
  pc_device : Device;
  pc_transform : option callable;
  pc_num_points : nat;
  pc_sample_points : nat;
  pc_sample_cache : gmap Z (list Row)
}.

(** [ModelNetPointCloud.__init__] (lines 114-148) *)
Definition ModelNetPointCloud_init (fs : filesystem) (basedir : Path)
    (split : string) (categories : option (list string))
    (device : Device) (transform : option callable)
    (num_points sample_points : nat) : result ModelNetPointCloud :=
  if negb (bool_decide (split ∈ ["train"; "test"])) then
    Raise (ValueError (BadSplit split))
  else
    entries <- iterdir fs basedir ;;
    let avail_categories := avail_categories_of entries in
    let cats := categories_or categories avail_categories in
    index <- scan_categories fs basedir split avail_categories 0 cats ([], []) ;;
    Return {| pc_categories := cats;
              pc_paths := index.1;
              pc_labels := index.2;
              pc_device := device;
              pc_transform := transform;
              pc_num_points := num_points;
              pc_sample_points := sample_points;
              pc_sample_cache := ∅ |}.

(** [ModelNetPointCloud.__len__] *)
Definition ModelNetPointCloud_len (self : ModelNetPointCloud) : nat :=
  length (pc_paths self).

(** [self.sample_cache[idx] = full_pts] *)
Definition set_cache (self : ModelNetPointCloud) (idx : Z)
    (full_pts : list Row) : ModelNetPointCloud :=
  {| pc_categories := pc_categories self;
     pc_paths := pc_paths self;
     pc_labels := pc_labels self;
     pc_device := pc_device self;
     pc_transform := pc_transform self;
     pc_num_points := pc_num_points self;
     pc_sample_points := pc_sample_points self;
     pc_sample_cache := <[idx := full_pts]> (pc_sample_cache self) |}.

(** The two generators an access draws from. *)
Record world := { np_rng : np_state; torch_rng : Gen }.

(** Where the [try] block of [__getitem__] stands when it ends: the
    object, the generators, the local [pts] if it has been assigned, and
    the exception that ended the block, if one did. *)
Record attempt := {
  at_self : ModelNetPointCloud;
  at_world : world;
  at_pts : option pyval;
  at_raised : option exn
}.

(** Lines 157-162: the full-resolution points of [idx], from the cache or
    sampled and then cached. *)
Definition full_points (self : ModelNetPointCloud) (gen : Gen) (idx : Z)
    : result (list Row) * ModelNetPointCloud * Gen :=
  match pc_sample_cache self !! idx with
  | Some full_pts => (Return full_pts, self, gen)
  | None =>
      match (path <- py_index (pc_paths self) idx ;; from_off path) with
      | Raise e => (Raise e, self, gen)
      | Return mesh =>
          match mesh_sample mesh (pc_sample_points self) gen with
          | (Raise e, gen') => (Raise e, self, gen')
          | (Return full_pts, gen') =>
              (Return full_pts, set_cache self idx full_pts, gen')
          end
      end
  end.

(** Lines 165-170: downsample, place on the device, transform. *)
Definition downsample (self : ModelNetPointCloud) (w : world)
    (full_pts : list Row) : attempt :=
  match np_random_choice (length full_pts) (pc_num_points self) (np_rng w) with
  | (Raise e, np') =>
      {| at_self := self; at_world := {| np_rng := np'; torch_rng := torch_rng w |};
         at_pts := None; at_raised := Some e |}
  | (Return idxs, np') =>
      let w' := {| np_rng := np'; torch_rng := torch_rng w |} in
      match index_rows full_pts idxs with
      | Raise e =>
          {| at_self := self; at_world := w'; at_pts := None; at_raised := Some e |}
      | Return pts =>
          match to_device pts (pc_device self) with
          | Raise e =>
              {| at_self := self; at_world := w';
                 at_pts := Some (VTensor pts); at_raised := Some e |}
          | Return pts =>
              match apply_transform (pc_transform self) (VTensor pts) with
              | Raise e =>
                  {| at_self := self; at_world := w';
                     at_pts := Some (VTensor pts); at_raised := Some e |}
              | Return v =>
                  {| at_self := self; at_world := w';
                     at_pts := Some v; at_raised := None |}
              end
          end
      end
  end.

(** The [try] block, lines 157-170. *)
Definition try_block (self : ModelNetPointCloud) (w : world) (idx : Z)
    : attempt :=
  match full_points self (torch_rng w) idx with
  | (Raise e, self', gen') =>
      {| at_self := self'; at_world := {| np_rng := np_rng w; torch_rng := gen' |};
         at_pts := None; at_raised := Some e |}
  | (Return full_pts, self', gen') =>
      downsample self' {| np_rng := np_rng w; torch_rng := gen' |} full_pts
  end.

(** How a call of [__getitem__] ends: the exception that the bare
    [except:] of lines 171-172 caught on its way into [pdb.set_trace()], if
    the handler was entered, and what the caller then gets.  (A debugger
    session is taken to be continued without touching the frame.) *)
Record outcome := { out_caught : option exn; out_result : result pyval }.

(** The call returns [v]; no handler was entered. *)
Definition Returned (v : pyval) : outcome :=
  {| out_caught := None; out_result := Return v |}.

(** The exception [e] reaches the caller; no handler was entered. *)
Definition Propagated (e : exn) : outcome :=
  {| out_caught := None; out_result := Raise e |}.

(** Line 173, [return pts], with the local [pts] as the [try] statement
    left it: an unassigned local raises [UnboundLocalError]. *)
Definition return_pts (pts : option pyval) : result pyval :=
  match pts with
  | Some v => Return v
  | None => Raise (UnboundLocalError "pts")
  end.

(** The handler caught [caught] and called [pdb.set_trace()]; line 173 then
    returns the local [pts], or raises if it was never assigned. *)
Definition Breakpoint (caught : exn) (pts : option pyval) : outcome :=
  {| out_caught := Some caught; out_result := return_pts pts |}.

(** [ModelNetPointCloud.__getitem__] (lines 154-173): the [try] statement,
    whose handler swallows whatever the block raised, and then line 173. *)
Definition ModelNetPointCloud_getitem (self : ModelNetPointCloud)
    (w : world) (idx : Z) : outcome * ModelNetPointCloud * world :=
  let a := try_block self w idx in
  ({| out_caught := at_raised a; out_result := return_pts (at_pts a) |},
   at_self a, at_world a).

(** *** Where the [try] block can raise *)

Inductive stage := Loading | Sampling | Downsampling | Placing | Transforming.

(** The full-resolution cloud of [idx]: the cached one, or on a miss the
    one sampled from the mesh of [paths[idx]] (lines 157-162). *)
Definition full_resolution (self : ModelNetPointCloud) (w : world) (idx : Z)
    (full_pts : list Row) : Prop :=
  pc_sample_cache self !! idx = Some full_pts
  ∨ (pc_sample_cache self !! idx = None
     ∧ ∃ mesh gen',
         (path <- py_index (pc_paths self) idx ;; from_off path) = Return mesh
         ∧ mesh_sample mesh (pc_sample_points self) (torch_rng w)
           = (Return full_pts, gen')).

(** The rows drawn from it (lines 165-167). *)
Definition subsample (self : ModelNetPointCloud) (w : world)
    (full_pts pts : list Row) : Prop :=
  ∃ idxs np',
    np_random_choice (length full_pts) (pc_num_points self) (np_rng w)
    = (Return idxs, np')
    ∧ index_rows full_pts idxs = Return pts.

(** Stage [s] of the access of [idx] raises [e], with the local [pts] bound
    to [pts] at that moment: reading the mesh file of a miss, sampling it,
    drawing the rows, placing them on the device, transforming them. *)
Definition stage_raises (self : ModelNetPointCloud) (w : world) (idx : Z)
    (s : stage) (e : exn) (pts : option pyval) : Prop :=
  match s with
  | Loading =>
      pc_sample_cache self !! idx = None
      ∧ (path <- py_index (pc_paths self) idx ;; from_off path) = Raise e
      ∧ pts = None
  | Sampling =>
      pc_sample_cache self !! idx = None
      ∧ (∃ mesh gen',
           (path <- py_index (pc_paths self) idx ;; from_off path) = Return mesh
           ∧ mesh_sample mesh (pc_sample_points self) (torch_rng w)
             = (Raise e, gen'))
      ∧ pts = None
  | Downsampling =>
      (∃ full_pts,
         full_resolution self w idx full_pts
         ∧ ((∃ np', np_random_choice (length full_pts) (pc_num_points self)
                      (np_rng w) = (Raise e, np'))
            ∨ (∃ idxs np',
                 np_random_choice (length full_pts) (pc_num_points self)
                   (np_rng w) = (Return idxs, np')
                 ∧ index_rows full_pts idxs = Raise e)))
      ∧ pts = None
  | Placing =>
      ∃ full_pts rows,
        full_resolution self w idx full_pts
        ∧ subsample self w full_pts rows
        ∧ to_device rows (pc_device self) = Raise e
        ∧ pts = Some (VTensor rows)
  | Transforming =>
      ∃ full_pts rows placed,
        full_resolution self w idx full_pts
        ∧ subsample self w full_pts rows
        ∧ to_device rows (pc_device self) = Return placed
        ∧ apply_transform (pc_transform self) (VTensor placed) = Raise e
        ∧ pts = Some (VTensor placed)
  end.

(** A run of accesses, one index after the other. *)
Fixpoint accesses (self : ModelNetPointCloud) (w : world) (idxs : list Z)
    : ModelNetPointCloud * world :=
  match idxs with
  | [] => (self, w)
  | idx :: rest =>
      let '(_, self', w') := ModelNetPointCloud_getitem self w idx in
      accesses self' w' rest
  end.

(** *** ModelNetVoxels *)

Record ModelNetVoxels := { vx_names : list string }.

(** [os.path], evaluated in namespace [ns]. *)
Definition os_path (ns : namespace) : result os_module :=
  o <- load_global ns "os" ;; attr_path o.

(** [glob(pattern)], evaluated in namespace [ns]. *)
Definition glob_call (ns : namespace) (pattern : string)
    : result (list string) :=
  o <- load_global ns "glob" ;; call_glob o pattern.

(** [root + '/ModelNet/volumetric_data/{0}/*/{1}/*{2}.mat'.format(category, split, side)] *)
Definition mat_pattern (root category split side : string) : string :=
  root +:+ "/ModelNet/volumetric_data/" +:+ category +:+ "/*/" +:+ split
       +:+ "/*" +:+ side +:+ ".mat".

(** The loop of lines 218-226, with [self.names] as accumulator.  (The
    message of the failed [assert] is kept up to the listing of the
    available classes.) *)
Fixpoint voxel_scan (ns : namespace) (root side : string)
    (train test : bool) (all_classes : list string)
    (categories : list string) (names : list string)
    : result (list string) :=
  match categories with
  | [] => Return names
  | category :: rest =>
      if negb (bool_decide (category ∈ all_classes)) then
        Raise (AssertionError ("object class " +:+ category
                             +:+ " not in list of availible classes"))
      else
        names <- (if train then
                    found <- glob_call ns (mat_pattern root category "train" side) ;;
                    Return (names ++ found)
                  else Return names) ;;
        names <- (if test then
                    found <- glob_call ns (mat_pattern root category "test" side) ;;
                    Return (names ++ found)
                  else Return names) ;;
        voxel_scan ns root side train test all_classes rest names
  end.

(** [ModelNetVoxels.__init__] (lines 204-226), run with the globals [ns]. *)
Definition ModelNetVoxels_init (ns : namespace) (root : string)
    (train test download : bool) (categories : list string)
    (single_view : bool) : result ModelNetVoxels :=
  os <- os_path ns ;;
  _ <- (if negb (os_path_exists os (root +:+ "/ModelNet/")) then
          if negb download then
            Raise (AssertionError "ModelNet is not found, and download is set to False")
          else if negb (train || test) then
            Raise (AssertionError "either train or test must be set to True")
          else Return tt
        else Return tt) ;;
  let side := if negb single_view then "" else "_1" in
  dirs <- glob_call ns (root +:+ "/ModelNet/volumetric_data/*/") ;;
  all_classes <- mapM_result
                   (fun c => os <- os_path ns ;;
                             Return (os_path_basename os (os_path_dirname os c)))
                   dirs ;;
  names <- voxel_scan ns root side train test all_classes categories [] ;;
  Return {| vx_names := names |}.

(** [ModelNetVoxels.__len__] *)
Definition ModelNetVoxels_len (self : ModelNetVoxels) : nat :=
  length (vx_names self).

(** [ModelNetVoxels.__getitem__] (lines 231-250) *)
Definition ModelNetVoxels_getitem (self : ModelNetVoxels) (item : Z)
    : result pyval :=
  object_path <- py_index (vx_names self) item ;;
  let object_path :=
    if String.prefix "win" platform
    then replace_char backslash slash object_path
    else object_path in
  object_class <- py_index (str_split slash object_path) (-4) ;;
  object_name <- py_index (str_split slash object_path) (-1) ;;
  mat <- loadmat object_path ;;
  object_data <- match mat !! "instance" with
                 | Some a => Return a
                 | None => Raise (KeyError "instance")
                 end ;;
  voxels <- float_tensor object_data ;;
  Return (VDict [ ("attributes", VDict [ ("name", VStr object_name);
                                         ("class", VStr object_class) ]);
                  ("data", VDict [ ("voxels", VVoxels voxels) ]) ]).

(** *** The three adapters as one dataset interface *)

Inductive adapter :=
| AModelNet (self : ModelNet)
| AModelNetPointCloud (self : ModelNetPointCloud)
| AModelNetVoxels (self : ModelNetVoxels).

(** A constructor call with its arguments. *)
Inductive ctor_call :=
| NewModelNet (basedir : Path) (rep split : string)
    (categories : option (list string)) (device : Device)
    (transform : option callable) (kwargs : gmap string nat)
| NewModelNetPointCloud (basedir : Path) (split : string)
    (categories : option (list string)) (device : Device)
    (transform : option callable) (num_points sample_points : nat)
| NewModelNetVoxels (root : string) (train test download : bool)
    (categories : list string) (single_view : bool).

Definition construct (fs : filesystem) (ns : namespace) (c : ctor_call)
    : result adapter :=
  match c with
  | NewModelNet basedir rep split categories device transform kwargs =>
      self <- ModelNet_init fs basedir rep split categories device
                transform kwargs ;;
      Return (AModelNet self)
  | NewModelNetPointCloud basedir split categories device transform
      num_points sample_points =>
      self <- ModelNetPointCloud_init fs basedir split categories device
                transform num_points sample_points ;;
      Return (AModelNetPointCloud self)
  | NewModelNetVoxels root train test download categories single_view =>
      self <- ModelNetVoxels_init ns root train test download categories
                single_view ;;
      Return (AModelNetVoxels self)
  end.

(** [len(dataset)] *)
Definition adapter_len (a : adapter) : nat :=
  match a with
  | AModelNet self => ModelNet_len self
  | AModelNetPointCloud self => ModelNetPointCloud_len self
  | AModelNetVoxels self => ModelNetVoxels_len self
  end.

(** [dataset[idx]] *)
Definition adapter_getitem (a : adapter) (w : world) (idx : Z)
    : outcome * adapter * world :=
  match a with
  | AModelNet self =>
      match ModelNet_getitem self (torch_rng w) idx with
      | (Return v, gen') =>
          (Returned v, a, {| np_rng := np_rng w; torch_rng := gen' |})
      | (Raise e, gen') =>
          (Propagated e, a, {| np_rng := np_rng w; torch_rng := gen' |})
      end
  | AModelNetPointCloud self =>
      let '(o, self', w') := ModelNetPointCloud_getitem self w idx in
      (o, AModelNetPointCloud self', w')
  | AModelNetVoxels self =>
      match ModelNetVoxels_getitem self idx with
      | Return v => (Returned v, a, w)
      | Raise e => (Propagated e, a, w)
      end
  end.

(** A run of accesses on any adapter. *)
Fixpoint adapter_accesses (a : adapter) (w : world) (idxs : list Z)
    : adapter * world :=
  match idxs with
  | [] => (a, w)
  | idx :: rest =>
      let '(_, a', w') := adapter_getitem a w idx in
      adapter_accesses a' w' rest
  end.

(** *** Counting what the construction-time scan matched *)

(** The number of matches of [*.off] under [basedir/cat/split], summed
    over the categories scanned. *)
Definition off_matches (fs : filesystem) (basedir : Path) (split : string)
    (cats : list string) : nat :=
  sum_list ((fun cat => length (path_glob fs (basedir ++ [cat; split]) "*.off"))
              <$> cats).

(** The number of matches of the .mat patterns of the selected splits,
    summed over the categories scanned. *)
Definition mat_matches (g : string -> list string) (root side : string)
    (train test : bool) (cats : list string) : nat :=
  sum_list ((fun cat =>
               (if train then length (g (mat_pattern root cat "train" side)) else 0)
               + (if test then length (g (mat_pattern root cat "test" side)) else 0))
              <$> cats).

Definition scan_matches (fs : filesystem) (ns : namespace) (c : ctor_call)
    (a : adapter) : nat :=
  match c, a with
  | NewModelNet basedir _ split _ _ _ _, AModelNet self =>
      off_matches fs basedir split (mn_categories self)
  | NewModelNetPointCloud basedir split _ _ _ _ _, AModelNetPointCloud self =>
      off_matches fs basedir split (pc_categories self)
  | NewModelNetVoxels root train test _ categories single_view, AModelNetVoxels _ =>
      match ns "glob" with
      | Some (ObjGlob g) =>
          mat_matches g root (if negb single_view then "" else "_1")
            train test categories
      | _ => 0
      end
  | _, _ => 0
  end.

(** Two states of one object: everything but the cache is the same. *)
Definition same_object (self self' : ModelNetPointCloud) : Prop :=
  pc_categories self' = pc_categories self
  ∧ pc_paths self' = pc_paths self
  ∧ pc_labels self' = pc_labels self
  ∧ pc_device self' = pc_device self
  ∧ pc_transform self' = pc_transform self
  ∧ pc_num_points self' = pc_num_points self
  ∧ pc_sample_points self' = pc_sample_points self.

(** The cache of [self'] extends that of [self]. *)
Definition cache_extends (self self' : ModelNetPointCloud) : Prop :=
  ∀ i full_pts, pc_sample_cache self !! i = Some full_pts →
                pc_sample_cache self' !! i = Some full_pts.

(** Every cached point cloud has [sample_points] rows. *)
Definition cache_sized (self : ModelNetPointCloud) : Prop :=
  ∀ i full_pts, pc_sample_cache self !! i = Some full_pts →
                length full_pts = pc_sample_points self.

(** *** What a constructor call scans *)

(** The keyword arguments [rep] and [split] of a call, checked as lines
    61-66 and 123-125 check them; [ModelNetVoxels] has neither. *)
Definition unsupported_keyword (c : ctor_call) : bool :=
  match c with
  | NewModelNet _ rep split _ _ _ _ =>
      negb (bool_decide (rep ∈ ["mesh"; "pointcloud"]))
      || negb (bool_decide (split ∈ ["train"; "test"]))
  | NewModelNetPointCloud _ split _ _ _ _ _ =>
      negb (bool_decide (split ∈ ["train"; "test"]))
  | NewModelNetVoxels _ _ _ _ _ _ => false
  end.

(** Base directory, split and [categories] argument of the two
    constructors that scan [basedir/category/split]. *)
Definition off_scan (c : ctor_call)
    : option (Path * string * option (list string)) :=
  match c with
  | NewModelNet basedir _ split categories _ _ _ =>
      Some (basedir, split, categories)
  | NewModelNetPointCloud basedir split categories _ _ _ _ =>
      Some (basedir, split, categories)
  | NewModelNetVoxels _ _ _ _ _ _ => None
  end.

(** [self.categories] *)
Definition adapter_categories (a : adapter) : list string :=
  match a with
  | AModelNet self => mn_categories self
  | AModelNetPointCloud self => pc_categories self
  | AModelNetVoxels _ => []
  end.

(** [zip(self.paths, self.labels)] *)
Definition adapter_index (a : adapter) : list (Path * nat) :=
  match a with
  | AModelNet self => zip (mn_paths self) (mn_labels self)
  | AModelNetPointCloud self => zip (pc_paths self) (pc_labels self)
  | AModelNetVoxels _ => []
  end.

(** *** Shapes of returned values *)

(** A pair of a sample and a one-element integer tensor. *)
Definition is_sample_label_pair (v : pyval) : bool :=
  match v with
  | VTuple [_; VLongTensor [_]] => true
  | _ => false
  end.

(** The keys of a dictionary, in order. *)
Definition dict_keys (v : pyval) : option (list string) :=
  match v with
  | VDict kvs => Some (kvs.*1)
  | _ => None
  end.

Definition dict_get (key : string) (v : pyval) : option pyval :=
  match v with
  | VDict kvs =>
      match list_find (fun kv => kv.1 = key) kvs with
      | Some (_, kv) => Some kv.2
      | None => None
      end
  | _ => None
  end.

(** A dictionary with keys [attributes] (itself with keys [name] and
    [class]) and [data]. *)
Definition is_attributes_data_dict (v : pyval) : bool :=
  bool_decide (dict_keys v = Some ["attributes"; "data"])
  && bool_decide ((dict_get "attributes" v ≫= dict_keys) = Some ["name"; "class"]).

(** The shape each variant is said to return: a (sample, label) pair from
    [ModelNet] and [ModelNetPointCloud], a dictionary from
    [ModelNetVoxels]. *)
Definition stated_shape (a : adapter) (v : pyval) : bool :=
  match a with
  | AModelNet _ | AModelNetPointCloud _ => is_sample_label_pair v
  | AModelNetVoxels _ => is_attributes_data_dict v
  end.

(** What each variant's [__getitem__] hands to its caller at index [idx],
    in world [w], when the call leaves the adapter as [a'] and the handler
    caught [caught] (nothing, for the two variants without a handler). *)
Definition built_shape (a a' : adapter) (w : world) (idx : Z)
    (caught : option exn) (v : pyval) : Prop :=
  match a with
  | AModelNet self =>
      ∃ path mesh l sample,
        py_index (mn_paths self) idx = Return path
        ∧ from_off path = Return mesh
        ∧ py_index (mn_labels self) idx = Return l
        ∧ ((mn_rep self = "mesh"
            ∧ apply_transform (mn_transform self) (VMesh mesh) = Return sample)
           ∨ (mn_rep self = "pointcloud"
              ∧ ∃ pts gen',
                  mesh_sample mesh (mn_num_points self) (torch_rng w)
                  = (Return pts, gen')
                  ∧ apply_transform (mn_transform self) (VTensor pts)
                    = Return sample))
        ∧ v = VTuple [sample; VLongTensor [Z.of_nat l]]
  | AModelNetPointCloud self =>
      ∃ full_pts idxs pts,
        match a' with
        | AModelNetPointCloud self' =>
            pc_sample_cache self' !! idx = Some full_pts
        | _ => False
        end
        ∧ length idxs = pc_num_points self ∧ NoDup idxs
        ∧ index_rows full_pts idxs = Return pts
        ∧ length pts = pc_num_points self
        ∧ match caught with
          | None => apply_transform (pc_transform self) (VTensor pts) = Return v
          | Some _ => v = VTensor pts
          end
  | AModelNetVoxels self =>
      ∃ stored mat data voxels name class,
        py_index (vx_names self) idx = Return stored
        ∧ let object_path :=
            if String.prefix "win" platform
            then replace_char backslash slash stored else stored in
          py_index (str_split slash object_path) (-4) = Return class
          ∧ py_index (str_split slash object_path) (-1) = Return name
          ∧ loadmat object_path = Return mat
          ∧ mat !! "instance" = Some data
          ∧ float_tensor data = Return voxels
          ∧ v = VDict [ ("attributes", VDict [ ("name", VStr name);
                                               ("class", VStr class) ]);
                        ("data", VDict [ ("voxels", VVoxels voxels) ]) ]
  end.

End Adapters.

(** ** Closed forms of the scan *)

(** The matches of one category directory. *)
Definition off_files (fs : filesystem) (basedir : Path) (split cat : string)
    : list Path :=
  path_glob fs (basedir ++ [cat; split]) "*.off".

(** The sample index the loop builds from position [idx] on: every match of
    a category, paired with the position of that category. *)
Fixpoint sample_index (fs : filesystem) (basedir : Path) (split : string)
    (idx : nat) (cats : list string) : list (Path * nat) :=
  match cats with
  | [] => []
  | cat :: rest =>
      ((fun p => (p, idx)) <$> off_files fs basedir split cat)
        ++ sample_index fs basedir split (S idx) rest
  end.

(** The first category of [cats] that the directory listing lacks. *)
Definition first_unknown (avail cats : list string) : option string :=
  head (filter (fun cat => cat ∉ avail) cats).

(** [enumerate(categories)]: each category with the label it stands for. *)
Definition category_labels (cats : list string) : list (string * nat) :=
  imap (fun i cat => (cat, i)) cats.

(** ** A small data set, for examples

    [data/] holds the directories [chair] (two training meshes, one test
    mesh) and [desk] (one training mesh) and a file [README]. *)
Definition demo_entries : list dirent :=
  [ {| d_name := "chair"; d_is_dir := true |};
    {| d_name := "README"; d_is_dir := false |};
    {| d_name := "desk"; d_is_dir := true |} ].

Definition demo_fs : filesystem :=
  {| iterdir := fun p =>
       if bool_decide (p = ["data"]) then Return demo_entries
       else Raise (OSError p);
     path_glob := fun p pattern =>
       if negb (bool_decide (pattern = "*.off")) then []
       else if bool_decide (p = ["data"; "chair"; "train"]) then
         [p ++ ["chair_0001.off"]; p ++ ["chair_0002.off"]]
       else if bool_decide (p = ["data"; "chair"; "test"]) then
         [p ++ ["chair_0003.off"]]
       else if bool_decide (p = ["data"; "desk"; "train"]) then
         [p ++ ["desk_0001.off"]]
       else [] |}.

(** Stand-ins for the libraries: a mesh is a number, a row is a number, a
    device is accepted when [true], torch's generator is a counter. *)
Definition demo_from_off (p : Path) : result nat := Return (length p).

Definition demo_mesh_sample (mesh n gen : nat) : result (list nat) * nat :=
  (Return (seq (10 * gen) n), S gen).

Definition demo_device_ok (d : bool) : bool := d.

Definition demo_loadmat (p : string) : result (gmap string nat) :=
  Return {[ "instance" := String.length p ]}.

Definition demo_float_tensor (g : nat) : result nat := Return g.

Definition demo_world : world (Gen := nat) := {| np_rng := [5; 3; 1]; torch_rng := 0 |}.

(** A namespace in which [os] and [glob] are bound, as they would be had
    the module imported them, over a tree with one voxel file:
    [os.path.dirname] drops the last component of a path,
    [os.path.basename] keeps it. *)
Definition str_join (sep : string) (parts : list string) : string :=
  match parts with
  | [] => ""
  | p :: ps => foldl (fun acc q => acc +:+ sep +:+ q) p ps
  end.

Definition demo_os : os_module :=
  {| os_path_exists := fun _ => true;
     os_path_basename := fun p => default "" (last (str_split slash p));
     os_path_dirname := fun p => str_join "/" (removelast (str_split slash p)) |}.

Definition demo_glob (pattern : string) : list string :=
  if bool_decide (pattern = "root/ModelNet/volumetric_data/*/") then
    ["root/ModelNet/volumetric_data/chair/"]
  else if bool_decide
            (pattern = "root/ModelNet/volumetric_data/chair/*/train/*_1.mat") then
    ["root/ModelNet/volumetric_data/chair/30/train/chair_000000182_1.mat"]
  else [].

Definition demo_installed : namespace :=
  fun name =>
    if bool_decide (name = "os") then Some (ObjOs demo_os)
    else if bool_decide (name = "glob") then Some (ObjGlob demo_glob)
    else Some ObjOther.

(** Constructor calls over the demo data. *)
Definition demo_pointcloud_call (num_points sample_points : nat)
    : ctor_call (Mesh := nat) (Row := nat) (Grid := nat) (Device := bool) :=
  NewModelNetPointCloud ["data"] "train" (Some ["desk"; "chair"]) true None
    num_points sample_points.

Definition demo_modelnet_call (rep split : string)
    (categories : option (list string))
    : ctor_call (Mesh := nat) (Row := nat) (Grid := nat) (Device := bool) :=
  NewModelNet ["data"] rep split categories true None ∅.

(** The objects these calls construct. *)
Definition demo_off (cat split file : string) : Path :=
  ["data"; cat; split; file].

Definition demo_pointcloud (num_points sample_points : nat)
    : ModelNetPointCloud (Mesh := nat) (Row := nat) (Grid := nat) (Device := bool) :=
  {| pc_categories := ["desk"; "chair"];
     pc_paths := [ demo_off "desk" "train" "desk_0001.off";
                   demo_off "chair" "train" "chair_0001.off";
                   demo_off "chair" "train" "chair_0002.off" ];
     pc_labels := [0; 1; 1];
     pc_device := true;
     pc_transform := None;
     pc_num_points := num_points;
     pc_sample_points := sample_points;
     pc_sample_cache := ∅ |}.

Definition demo_modelnet
    : ModelNet (Mesh := nat) (Row := nat) (Grid := nat) (Device := bool) :=
  {| mn_categories := ["desk"; "chair"];
     mn_paths := [ demo_off "desk" "train" "desk_0001.off";
                   demo_off "chair" "train" "chair_0001.off";
                   demo_off "chair" "train" "chair_0002.off" ];
     mn_labels := [0; 1; 1];
     mn_rep := "mesh";
     mn_device := true;
     mn_transform := None;
     mn_num_points := 1024 |}.

(** The demo libraries, applied. *)
Definition demo_getitem :=
  ModelNetPointCloud_getitem (Grid := nat) demo_from_off demo_mesh_sample
    demo_device_ok.

Definition demo_accesses :=
  accesses (Grid := nat) demo_from_off demo_mesh_sample demo_device_ok.

Definition demo_item :=
  adapter_getitem demo_from_off demo_mesh_sample demo_device_ok demo_loadmat
    demo_float_tensor "linux".

Definition demo_items :=
  adapter_accesses demo_from_off demo_mesh_sample demo_device_ok demo_loadmat
    demo_float_tensor "linux".

(** ** Further vocabulary for the adapters *)

Section AdapterParts.

Context {Mesh Row Grid Device : Type}.

(** [self.paths] and [self.labels] *)
Definition adapter_paths
    (a : adapter (Mesh := Mesh) (Row := Row) (Grid := Grid) (Device := Device))
    : list Path :=
  match a with
  | AModelNet self => mn_paths self
  | AModelNetPointCloud self => pc_paths self
  | AModelNetVoxels _ => []
  end.

Definition adapter_labels
    (a : adapter (Mesh := Mesh) (Row := Row) (Grid := Grid) (Device := Device))
    : list nat :=
  match a with
  | AModelNet self => mn_labels self
  | AModelNetPointCloud self => pc_labels self
  | AModelNetVoxels _ => []
  end.

(** How an access with an index outside the data set ends: the
    [IndexError] reaches the caller of [ModelNet] and [ModelNetVoxels], and
    is caught by the handler of [ModelNetPointCloud]. *)
Definition out_of_range_outcome
    (a : adapter (Mesh := Mesh) (Row := Row) (Grid := Grid) (Device := Device))
    : outcome (Mesh := Mesh) (Row := Row) (Grid := Grid) :=
  match a with
  | AModelNetPointCloud _ => Breakpoint IndexError None
  | _ => Propagated IndexError
  end.

(** Whether the cache of a [ModelNetPointCloud] has no entry for [idx]
    (the other adapters have no cache). *)
Definition uncached
    (a : adapter (Mesh := Mesh) (Row := Row) (Grid := Grid) (Device := Device))
    (idx : Z) : Prop :=
  match a with
  | AModelNetPointCloud self => pc_sample_cache self !! idx = None
  | _ => True
  end.

End AdapterParts.

(** The labels of a sample index moved up by [n]. *)
Definition shift_labels (n : nat) (index : list (Path * nat))
    : list (Path * nat) :=
  (fun pl => (pl.1, n + pl.2)) <$> index.

(** The number of occurrences of a character in a string. *)
Fixpoint count_char (c : ascii) (s : string) : nat :=
  match s with
  | EmptyString => 0
  | String c' s' => (if Ascii.eqb c' c then 1 else 0) + count_char c s'
  end.

(** *** Closed forms of the scan of [ModelNetVoxels.__init__] *)

(** The class names read off the directories under [volumetric_data]. *)
Definition voxel_classes (os : os_module) (g : string -> list string)
    (root : string) : list string :=
  (fun c => os_path_basename os (os_path_dirname os c))
    <$> g (root +:+ "/ModelNet/volumetric_data/*/").

(** The files of one category: the training matches, then the test
    matches, of the splits that are selected. *)
Definition mat_files (g : string -> list string) (root side : string)
    (train test : bool) (cat : string) : list string :=
  (if train then g (mat_pattern root cat "train" side) else [])
    ++ (if test then g (mat_pattern root cat "test" side) else []).

(** Whether lines 206-208 let the constructor go on. *)
Definition root_check (os : os_module) (root : string)
    (train test download : bool) : bool :=
  os_path_exists os (root +:+ "/ModelNet/") || (download && (train || test)).

(** [ModelNetVoxels] objects for the examples. *)
Definition demo_voxel_path : string :=
  "root/ModelNet/volumetric_data/chair/30/train/chair_000000182_1.mat".

Definition demo_voxels : ModelNetVoxels := {| vx_names := [demo_voxel_path] |}.

Definition demo_voxels_windows : ModelNetVoxels :=
  {| vx_names :=
       ["root\ModelNet\volumetric_data\chair\30\train\chair_000000182_1.mat"] |}.

(** [ModelNet] objects over one category each, and a namespace that binds
    only [os], on a machine without the data set. *)
Definition demo_modelnet_desk
    : ModelNet (Mesh := nat) (Row := nat) (Grid := nat) (Device := bool) :=
  {| mn_categories := ["desk"];
     mn_paths := [ demo_off "desk" "train" "desk_0001.off" ];
     mn_labels := [0];
     mn_rep := "mesh";
     mn_device := true;
     mn_transform := None;
     mn_num_points := 1024 |}.

Definition demo_modelnet_chair
    : ModelNet (Mesh := nat) (Row := nat) (Grid := nat) (Device := bool) :=
  {| mn_categories := ["chair"];
     mn_paths := [ demo_off "chair" "train" "chair_0001.off";
                   demo_off "chair" "train" "chair_0002.off" ];
     mn_labels := [0; 0];
     mn_rep := "pointcloud";
     mn_device := true;
     mn_transform := None;
     mn_num_points := 1024 |}.

Definition demo_os_without_data : os_module :=
  {| os_path_exists := fun _ => false;
     os_path_basename := os_path_basename demo_os;
     os_path_dirname := os_path_dirname demo_os |}.

Definition demo_only_os : namespace :=
  fun name =>
    if bool_decide (name = "os") then Some (ObjOs demo_os_without_data)
    else None.

Definition demo_unreadable (p : Path) : result nat := Raise (OSError p).

Definition demo_mn_item :=
  ModelNet_getitem (Grid := nat) demo_from_off demo_mesh_sample demo_device_ok.

Definition demo_vx_item :=
  ModelNetVoxels_getitem (Mesh := nat) (Row := nat) demo_loadmat
    demo_float_tensor.

(** A transform that always raises, and the point-cloud adapter of the demo
    data with it. *)
Definition demo_raising_transform
    : callable (Mesh := nat) (Row := nat) (Grid := nat) :=
  fun _ => Raise (LibraryError 7).

Definition demo_pointcloud_raising
    : ModelNetPointCloud (Mesh := nat) (Row := nat) (Grid := nat) (Device := bool) :=
  {| pc_categories := ["desk"; "chair"];
     pc_paths := [ demo_off "desk" "train" "desk_0001.off";
                   demo_off "chair" "train" "chair_0001.off";
                   demo_off "chair" "train" "chair_0002.off" ];
     pc_labels := [0; 1; 1];
     pc_device := true;
     pc_transform := Some demo_raising_transform;
     pc_num_points := 2;
     pc_sample_points := 4;
     pc_sample_cache := ∅ |}.

(** ** Properties of the scan *)

Lemma append_matches_app idx found acc :
  append_matches idx found acc
  = (acc.1 ++ found, acc.2 ++ replicate (length found) idx).
Proof.
  unfold append_matches. revert acc.
  induction found as [|p found IH]; intros [ps ls]; simpl.
  - by rewrite !app_nil_r.
  - rewrite IH. simpl. by rewrite <- !app_assoc.
Qed.

Lemma scan_categories_known fs basedir split avail cats :
  ∀ idx acc,
    Forall (fun cat => cat ∈ avail) cats →
    scan_categories fs basedir split avail idx cats acc
    = Return (acc.1 ++ (sample_index fs basedir split idx cats).*1,
              acc.2 ++ (sample_index fs basedir split idx cats).*2).
Proof.
  induction cats as [|cat rest IH]; intros idx [ps ls] Hall; simpl.
  - by rewrite !app_nil_r.
  - inversion Hall as [|? ? Hcat Hrest]; subst.
    rewrite bool_decide_eq_true_2 by done.
    rewrite append_matches_app, IH by done. simpl.
    rewrite !fmap_app, <- !list_fmap_compose, !app_assoc. simpl.
    unfold off_files.
    generalize (path_glob fs (basedir ++ [cat; split]) "*.off"); intros l.
    assert ((fst ∘ (fun p : Path => (p, idx))) <$> l = l) as ->
      by (induction l as [|? ? IHl]; [done | by rewrite fmap_cons, IHl]).
    assert ((snd ∘ (fun p : Path => (p, idx))) <$> l = replicate (length l) idx)
      as -> by (induction l as [|? ? IHl]; [done | by rewrite fmap_cons, IHl]).
    done.
Qed.

Lemma scan_categories_unknown fs basedir split avail cats cat :
  ∀ idx acc,
    first_unknown avail cats = Some cat →
    scan_categories fs basedir split avail idx cats acc
    = Raise (ValueError (BadClass cat avail)).
Proof.
  unfold first_unknown.
  induction cats as [|c rest IH]; intros idx acc Hfirst; simpl in *; [done|].
  rewrite filter_cons in Hfirst.
  destruct (decide (c ∉ avail)) as [Hc|Hc].
  - simpl in Hfirst. injection Hfirst as ->.
    by rewrite bool_decide_eq_false_2.
  - apply dec_stable in Hc. rewrite bool_decide_eq_true_2 by done.
    by apply IH.
Qed.

Lemma first_unknown_is_Some avail cats cat :
  cat ∈ cats → cat ∉ avail → is_Some (first_unknown avail cats).
Proof.
  intros Hin Hnot. unfold first_unknown.
  destruct (filter (fun c => c ∉ avail) cats) as [|c l] eqn:E; simpl; [|eauto].
  assert (cat ∈ filter (fun c => c ∉ avail) cats) as H
    by (apply list_elem_of_filter; done).
  rewrite E in H. by apply not_elem_of_nil in H.
Qed.

Lemma first_unknown_None avail cats :
  first_unknown avail cats = None ↔ Forall (fun cat => cat ∈ avail) cats.
Proof.
  unfold first_unknown. induction cats as [|c rest IH]; simpl.
  - split; [constructor|done].
  - rewrite filter_cons. destruct (decide (c ∉ avail)) as [Hc|Hc]; simpl.
    + split; [done|]. inversion 1; subst. done.
    + apply dec_stable in Hc. rewrite IH. split.
      * by constructor.
      * by inversion 1.
Qed.

Lemma sample_index_length fs basedir split cats :
  ∀ idx, length (sample_index fs basedir split idx cats)
         = off_matches fs basedir split cats.
Proof.
  unfold off_matches.
  induction cats as [|cat rest IH]; intros idx; simpl; [done|].
  by rewrite length_app, length_fmap, IH.
Qed.

(** ** Properties of [np.random.choice] *)

Lemma insert_head_Permutation (x : list nat) j a b :
  x !! j = Some b → b :: <[j:=a]> x ≡ₚ a :: x.
Proof.
  revert j. induction x as [|h t IH]; intros [|j] Hj; simpl in *; try done.
  - injection Hj as ->. apply perm_swap.
  - rewrite (perm_swap h b). rewrite (IH j Hj). apply perm_swap.
Qed.

Lemma swap_Permutation x i j : swap x i j ≡ₚ x.
Proof.
  unfold swap. destruct (x !! i) as [a|] eqn:Hi; [|done].
  destruct (x !! j) as [b|] eqn:Hj; [|done].
  revert i j Hi Hj. induction x as [|h t IH]; intros [|i] [|j] Hi Hj;
    simpl in *; try done.
  - by injection Hi as ->; injection Hj as ->.
  - injection Hi as ->. by apply insert_head_Permutation.
  - injection Hj as ->. rewrite (insert_head_Permutation t i b a Hi).
    done.
  - constructor. by apply IH.
Qed.

Lemma shuffle_from_Permutation i :
  ∀ x st, (shuffle_from i x st).1 ≡ₚ x.
Proof.
  induction i as [|i IH]; intros x st; simpl; [done|].
  destruct (random_interval (S i) st) as [j st'].
  rewrite IH. apply swap_Permutation.
Qed.

Lemma np_permutation_Permutation n st :
  (np_permutation n st).1 ≡ₚ seq 0 n.
Proof. apply shuffle_from_Permutation. Qed.

(** Within range, the call returns [size] distinct positions below [n]. *)
Lemma np_random_choice_returns (n size : nat) (st : np_state) :
  size ≤ n →
  ∃ idxs st',
    np_random_choice n size st = (Return idxs, st')
    ∧ length idxs = size ∧ NoDup idxs ∧ Forall (fun i => i < n) idxs.
Proof.
  intros Hle. unfold np_random_choice.
  destruct (Nat.ltb_spec n size) as [?|_]; [lia|].
  pose proof (np_permutation_Permutation n st) as Hperm.
  destruct (np_permutation n st) as [perm st']. simpl in Hperm.
  exists (take size perm), st'. split; [done|].
  assert (length perm = n) as Hlen
    by (rewrite Hperm; apply length_seq).
  assert (NoDup perm) as Hnd by (rewrite Hperm; apply NoDup_seq).
  split; [rewrite length_take; lia|]. split.
  - apply (sublist_NoDup _ perm); [done | apply sublist_take].
  - apply Forall_take. rewrite Hperm. apply Forall_forall.
    intros k Hk. apply elem_of_seq in Hk. lia.
Qed.

(** Asked for more than there is, the call raises. *)
Lemma np_random_choice_raises (n size : nat) (st : np_state) :
  n < size → np_random_choice n size st = (Raise ChoiceError, st).
Proof.
  intros Hlt. unfold np_random_choice.
  by destruct (Nat.ltb_spec n size) as [_|?]; [|lia].
Qed.

Lemma np_random_choice_inv (n size : nat) (st : np_state) idxs st' :
  np_random_choice n size st = (Return idxs, st') →
  size ≤ n ∧ length idxs = size ∧ NoDup idxs ∧ Forall (fun i => i < n) idxs.
Proof.
  intros H. destruct (decide (n < size)) as [Hlt|Hge].
  - by rewrite np_random_choice_raises in H.
  - destruct (np_random_choice_returns n size st) as (l & s & Hl & ?); [lia|].
    rewrite Hl in H. injection H as <- <-. split; [lia|done].
Qed.

Lemma index_rows_length {A} (t : list A) idxs rows :
  index_rows t idxs = Return rows → length rows = length idxs.
Proof.
  unfold index_rows. destruct (mapM _ idxs) as [l|] eqn:E; [|done].
  intros [= <-]. symmetry. by apply length_mapM in E.
Qed.

Lemma index_rows_returns {A} (t : list A) idxs :
  Forall (fun i => i < length t) idxs →
  ∃ rows, index_rows t idxs = Return rows ∧ length rows = length idxs.
Proof.
  intros Hall. unfold index_rows.
  destruct (mapM (fun i => t !! i) idxs) as [rows|] eqn:E.
  - exists rows. split; [done|]. symmetry. by apply length_mapM in E.
  - apply mapM_None in E. apply Exists_exists in E as (i & Hi & Hnone).
    rewrite Forall_forall in Hall. apply Hall in Hi.
    apply lookup_ge_None in Hnone. lia.
Qed.

(** ** Properties of the constructors *)

Section ConstructorProperties.

Context {Mesh Row Grid Device Gen : Type}.

Abbreviation ctor := (ctor_call (Mesh := Mesh) (Row := Row) (Grid := Grid)
                            (Device := Device)).
Abbreviation transform_t := (option (callable (Mesh := Mesh) (Row := Row)
                                          (Grid := Grid))).

(** Both scanning constructors run the same scan once their keyword
    checks have passed and the directory has been listed. *)
Lemma ModelNet_init_scan fs basedir rep split categories
    (device : Device) (transform : transform_t) kwargs entries :
  rep ∈ ["mesh"; "pointcloud"] → split ∈ ["train"; "test"] →
  iterdir fs basedir = Return entries →
  ModelNet_init fs basedir rep split categories device transform kwargs
  = (index <- scan_categories fs basedir split (avail_categories_of entries) 0
                (categories_or categories (avail_categories_of entries)) ([], []) ;;
     Return {| mn_categories := categories_or categories (avail_categories_of entries);
               mn_paths := index.1; mn_labels := index.2; mn_rep := rep;
               mn_device := device; mn_transform := transform;
               mn_num_points := default 1024 (kwargs !! "num_points") |}).
Proof.
  intros Hrep Hsplit Hdir. unfold ModelNet_init.
  rewrite !bool_decide_eq_true_2 by done. simpl. by rewrite Hdir.
Qed.

Lemma ModelNetPointCloud_init_scan fs basedir split categories
    (device : Device) (transform : transform_t) num_points sample_points
    entries :
  split ∈ ["train"; "test"] →
  iterdir fs basedir = Return entries →
  ModelNetPointCloud_init fs basedir split categories device transform
    num_points sample_points
  = (index <- scan_categories fs basedir split (avail_categories_of entries) 0
                (categories_or categories (avail_categories_of entries)) ([], []) ;;
     Return {| pc_categories := categories_or categories (avail_categories_of entries);
               pc_paths := index.1; pc_labels := index.2;
               pc_device := device; pc_transform := transform;
               pc_num_points := num_points; pc_sample_points := sample_points;
               pc_sample_cache := ∅ |}).
Proof.
  intros Hsplit Hdir. unfold ModelNetPointCloud_init.
  rewrite !bool_decide_eq_true_2 by done. simpl. by rewrite Hdir.
Qed.

(** A successful construction passed the keyword checks, listed the
    directory, and found every category in the listing. *)
Lemma scanning_construct_inv fs ns (c : ctor) a basedir split categories :
  off_scan c = Some (basedir, split, categories) →
  construct fs ns c = Return a →
  ∃ entries,
    iterdir fs basedir = Return entries
    ∧ adapter_categories a = categories_or categories (avail_categories_of entries)
    ∧ adapter_index a = sample_index fs basedir split 0 (adapter_categories a)
    ∧ adapter_len a = length (adapter_index a).
Proof.
  intros Hscan Hc.
  destruct c as [b rep s cs dev tr kw | b s cs dev tr np sp | ];
    simpl in Hscan; [| |done]; injection Hscan as -> -> ->; simpl in Hc.
  - unfold ModelNet_init in Hc.
    destruct (negb (bool_decide (rep ∈ ["mesh"; "pointcloud"]))); [done|].
    destruct (negb (bool_decide (split ∈ ["train"; "test"]))); [done|].
    destruct (iterdir fs basedir) as [entries|] eqn:Hdir; [|done].
    simpl in Hc. exists entries. split; [done|].
    set (avail := avail_categories_of entries) in *.
    set (cats := categories_or categories avail) in *.
    destruct (first_unknown avail cats) as [bad|] eqn:Hfirst.
    { by rewrite (scan_categories_unknown _ _ _ _ _ bad) in Hc. }
    apply first_unknown_None in Hfirst.
    rewrite scan_categories_known in Hc by done. simpl in Hc.
    injection Hc as <-. simpl. unfold ModelNet_len. simpl.
    rewrite zip_fst_snd. split; [done|]. split; [done|].
    by rewrite length_fmap.
  - unfold ModelNetPointCloud_init in Hc.
    destruct (negb (bool_decide (split ∈ ["train"; "test"]))); [done|].
    destruct (iterdir fs basedir) as [entries|] eqn:Hdir; [|done].
    simpl in Hc. exists entries. split; [done|].
    set (avail := avail_categories_of entries) in *.
    set (cats := categories_or categories avail) in *.
    destruct (first_unknown avail cats) as [bad|] eqn:Hfirst.
    { by rewrite (scan_categories_unknown _ _ _ _ _ bad) in Hc. }
    apply first_unknown_None in Hfirst.
    rewrite scan_categories_known in Hc by done. simpl in Hc.
    injection Hc as <-. simpl. unfold ModelNetPointCloud_len. simpl.
    rewrite zip_fst_snd. split; [done|]. split; [done|].
    by rewrite length_fmap.
Qed.

(** An unknown category stops the scanning constructors with the
    [ValueError] of lines 77-79 and 136-138, once the keyword checks have
    passed and the directory has been listed. *)
Lemma ModelNet_init_unknown_category fs basedir rep split cats cat
    (device : Device) (transform : transform_t) kwargs entries :
  rep ∈ ["mesh"; "pointcloud"] → split ∈ ["train"; "test"] →
  iterdir fs basedir = Return entries →
  cat ∈ cats → cat ∉ avail_categories_of entries →
  ∃ bad, bad ∈ cats ∧ (bad ∉ avail_categories_of entries)
    ∧ ModelNet_init fs basedir rep split (Some cats) device transform kwargs
      = Raise (ValueError (BadClass bad (avail_categories_of entries))).
Proof.
  intros Hrep Hsplit Hdir Hin Hnot.
  rewrite (ModelNet_init_scan _ _ _ _ _ _ _ _ entries) by done.
  destruct (first_unknown_is_Some _ _ _ Hin Hnot) as [bad Hbad].
  assert (categories_or (Some cats) (avail_categories_of entries) = cats) as ->
    by (destruct cats; [by apply not_elem_of_nil in Hin | done]).
  rewrite (scan_categories_unknown _ _ _ _ _ bad) by done.
  exists bad. split_and!; [| |done].
  - unfold first_unknown in Hbad. apply head_Some_elem_of in Hbad.
    by apply list_elem_of_filter in Hbad as [_ ?].
  - unfold first_unknown in Hbad. apply head_Some_elem_of in Hbad.
    by apply list_elem_of_filter in Hbad as [? _].
Qed.

Lemma ModelNetPointCloud_init_unknown_category fs basedir split cats cat
    (device : Device) (transform : transform_t) num_points sample_points
    entries :
  split ∈ ["train"; "test"] →
  iterdir fs basedir = Return entries →
  cat ∈ cats → cat ∉ avail_categories_of entries →
  ∃ bad, bad ∈ cats ∧ (bad ∉ avail_categories_of entries)
    ∧ ModelNetPointCloud_init fs basedir split (Some cats) device transform
        num_points sample_points
      = Raise (ValueError (BadClass bad (avail_categories_of entries))).
Proof.
  intros Hsplit Hdir Hin Hnot.
  rewrite (ModelNetPointCloud_init_scan _ _ _ _ _ _ _ _ entries) by done.
  destruct (first_unknown_is_Some _ _ _ Hin Hnot) as [bad Hbad].
  assert (categories_or (Some cats) (avail_categories_of entries) = cats) as ->
    by (destruct cats; [by apply not_elem_of_nil in Hin | done]).
  rewrite (scan_categories_unknown _ _ _ _ _ bad) by done.
  exists bad. split_and!; [| |done].
  - unfold first_unknown in Hbad. apply head_Some_elem_of in Hbad.
    by apply list_elem_of_filter in Hbad as [_ ?].
  - unfold first_unknown in Hbad. apply head_Some_elem_of in Hbad.
    by apply list_elem_of_filter in Hbad as [? _].
Qed.

(** The module binds neither [os] nor [glob]. *)
Lemma module_globals_os installed : module_globals installed "os" = None.
Proof. reflexivity. Qed.

Lemma module_globals_glob installed : module_globals installed "glob" = None.
Proof. reflexivity. Qed.

(** C2, at the failing input: with the module's own globals,
    [ModelNetVoxels(categories=['nonexistent'])] does not reach the check
    [assert category in all_classes]; evaluating the name [os] on line 206
    raises a [NameError], which is no validation error. *)
Theorem ModelNetVoxels_unknown_category_NameError :
  ∀ installed root train test download single_view,
    ModelNetVoxels_init (module_globals installed) root train test download
      ["nonexistent"] single_view
    = Raise (NameError "os")
    ∧ is_validation_error (NameError "os") = false.
Proof. intros. split; reflexivity. Qed.

(** C3: a [rep] other than 'mesh' and 'pointcloud' (for [ModelNet]) or a
    [split] other than 'train' and 'test' (for [ModelNet] and
    [ModelNetPointCloud]) makes the constructor raise a [ValueError] about
    that keyword; this holds for every file system, also one whose
    directory listing fails, so nothing has been scanned when it is raised. *)
Theorem unsupported_keyword_ValueError (c : ctor) :
  unsupported_keyword c = true →
  ∀ fs ns, ∃ why,
    construct fs ns c = Raise (ValueError why)
    ∧ (∃ kw, why = BadRep kw ∨ why = BadSplit kw).
Proof.
  intros Hbad fs ns.
  destruct c as [b rep s cs dev tr kw | b s cs dev tr np sp | ];
    simpl in *; [| |done].
  - unfold ModelNet_init.
    destruct (negb (bool_decide (rep ∈ ["mesh"; "pointcloud"]))) eqn:Hrep.
    + exists (BadRep rep). split; [done|]. exists rep. by left.
    + simpl in Hbad. rewrite Hbad.
      exists (BadSplit s). split; [done|]. exists s. by right.
  - unfold ModelNetPointCloud_init. rewrite Hbad.
    exists (BadSplit s). split; [done|]. exists s. by right.
Qed.

(** C9: with the module's own globals, [ModelNetVoxels.__init__] raises
    [NameError] for the name [os] whatever its arguments are, so it never
    returns an object; the name [glob] is unbound as well. *)
Theorem ModelNetVoxels_init_NameError :
  ∀ installed root train test download categories single_view,
    ModelNetVoxels_init (module_globals installed) root train test download
      categories single_view = Raise (NameError "os")
    ∧ is_raise (ModelNetVoxels_init (module_globals installed) root train test
                  download categories single_view) = true
    ∧ load_global (module_globals installed) "glob" = Raise (NameError "glob").
Proof. intros. split_and!; reflexivity. Qed.

(** C10: an empty category list is treated as no category list by both
    scanning constructors, and where the keyword checks pass and the
    directory can be listed the constructor returns an object whose
    categories are all the subdirectories of the root. *)
Theorem empty_categories_select_all :
  ∀ fs basedir rep split (device : Device) (transform : transform_t) kwargs
    num_points sample_points,
    ModelNet_init fs basedir rep split (Some []) device transform kwargs
    = ModelNet_init fs basedir rep split None device transform kwargs
    ∧ ModelNetPointCloud_init fs basedir split (Some []) device transform
        num_points sample_points
      = ModelNetPointCloud_init fs basedir split None device transform
          num_points sample_points
    ∧ (∀ entries,
         iterdir fs basedir = Return entries →
         split ∈ ["train"; "test"] →
         (rep ∈ ["mesh"; "pointcloud"] →
          ∃ self,
            ModelNet_init fs basedir rep split (Some []) device transform kwargs
            = Return self
            ∧ mn_categories self = avail_categories_of entries
            ∧ ModelNet_len self
              = off_matches fs basedir split (avail_categories_of entries))
         ∧ ∃ self,
             ModelNetPointCloud_init fs basedir split (Some []) device
               transform num_points sample_points = Return self
             ∧ pc_categories self = avail_categories_of entries
             ∧ ModelNetPointCloud_len self
               = off_matches fs basedir split (avail_categories_of entries)).
Proof.
  intros. split; [reflexivity|]. split; [reflexivity|].
  intros entries Hdir Hsplit.
  assert (Forall (fun cat => cat ∈ avail_categories_of entries)
            (avail_categories_of entries)) as Hall
    by (by apply Forall_forall).
  split.
  - intros Hrep.
    rewrite (ModelNet_init_scan _ _ _ _ _ _ _ _ entries) by done. simpl.
    rewrite scan_categories_known by done. simpl.
    eexists. split; [done|]. split; [done|].
    unfold ModelNet_len. simpl.
    by rewrite length_fmap, sample_index_length.
  - rewrite (ModelNetPointCloud_init_scan _ _ _ _ _ _ _ _ entries) by done.
    simpl. rewrite scan_categories_known by done. simpl.
    eexists. split; [done|]. split; [done|].
    unfold ModelNetPointCloud_len. simpl.
    by rewrite length_fmap, sample_index_length.
Qed.

End ConstructorProperties.

(** ** Properties of the accesses *)

Section AccessProperties.

Context {Mesh Row Grid Device Gen : Type}.
Variable from_off : Path → result Mesh.
Variable mesh_sample : Mesh → nat → Gen → result (list Row) * Gen.
Variable device_ok : Device → bool.
Variable loadmat : string → result (gmap string Grid).
Variable float_tensor : Grid → result Grid.
Variable platform : string.

Abbreviation pointcloud := (ModelNetPointCloud (Mesh := Mesh) (Row := Row)
                              (Grid := Grid) (Device := Device)).
Abbreviation world_t := (world (Gen := Gen)).
Abbreviation getitem := (ModelNetPointCloud_getitem from_off mesh_sample device_ok).
Abbreviation run := (accesses from_off mesh_sample device_ok).

Lemma same_object_refl (self : pointcloud) : same_object self self.
Proof. by repeat split. Qed.

Lemma same_object_trans (s1 s2 s3 : pointcloud) :
  same_object s1 s2 → same_object s2 s3 → same_object s1 s3.
Proof.
  unfold same_object. intros (?&?&?&?&?&?&?) (?&?&?&?&?&?&?).
  repeat split; congruence.
Qed.

(** Lines 157-162 write the cache only at an index that has no entry. *)
Lemma full_points_spec (self : pointcloud) gen idx r self' gen' :
  full_points from_off mesh_sample self gen idx = (r, self', gen') →
  same_object self self' ∧ cache_extends self self'
  ∧ (∀ i v, pc_sample_cache self' !! i = Some v →
            pc_sample_cache self !! i = Some v
            ∨ (i = idx ∧ r = Return v
               ∧ ∃ mesh, mesh_sample mesh (pc_sample_points self) gen
                         = (Return v, gen')))
  ∧ (∀ v, r = Return v → pc_sample_cache self' !! idx = Some v).
Proof.
  unfold full_points. intros H.
  destruct (pc_sample_cache self !! idx) as [cached|] eqn:Hc.
  { injection H as <- <- <-. split; [apply same_object_refl|].
    split; [by intros ??|]. split; [by left|]. by intros v [= <-]. }
  destruct (path <- py_index (pc_paths self) idx;; from_off path) as [mesh|e].
  2:{ injection H as <- <- <-. split; [apply same_object_refl|].
      split; [by intros ??|]. split; [by left|]. done. }
  destruct (mesh_sample mesh (pc_sample_points self) gen) as [[pts|e] g] eqn:Hs.
  2:{ injection H as <- <- <-. split; [apply same_object_refl|].
      split; [by intros ??|]. split; [by left|]. done. }
  injection H as <- <- <-. split; [by repeat split|]. split; [|split].
  - intros i v Hi. simpl. rewrite lookup_insert_ne; [done|]. congruence.
  - intros i v. simpl. destruct (decide (idx = i)) as [->|Hne].
    + rewrite lookup_insert_eq. intros [= <-]. right. eauto.
    + rewrite lookup_insert_ne by done. by left.
  - intros v [= <-]. simpl. by rewrite lookup_insert_eq.
Qed.

Lemma downsample_self (self : pointcloud) (w : world_t) full_pts :
  at_self (downsample device_ok self w full_pts) = self.
Proof.
  unfold downsample.
  destruct (np_random_choice _ _ _) as [[idxs|e] np']; [|done].
  destruct (index_rows _ _); [|done].
  destruct (to_device _ _ _); [|done].
  by destruct (apply_transform _ _).
Qed.

(** A block that ends without an exception has assigned [pts]. *)
Lemma downsample_pts (self : pointcloud) (w : world_t) full_pts :
  at_raised (downsample device_ok self w full_pts) = None →
  is_Some (at_pts (downsample device_ok self w full_pts)).
Proof.
  unfold downsample.
  destruct (np_random_choice _ _ _) as [[idxs|e] np']; [|done].
  destruct (index_rows _ _); [|done].
  destruct (to_device _ _ _); [|done].
  destruct (apply_transform _ _); [|done]. simpl. eauto.
Qed.

Lemma try_block_pts (self : pointcloud) w idx :
  at_raised (try_block from_off mesh_sample device_ok self w idx) = None →
  is_Some (at_pts (try_block from_off mesh_sample device_ok self w idx)).
Proof.
  unfold try_block.
  destruct (full_points _ _ _ _ _) as [[[full|e] self'] gen']; [|done].
  apply downsample_pts.
Qed.

Lemma getitem_self (self : pointcloud) w idx :
  (getitem self w idx).1.2
  = at_self (try_block from_off mesh_sample device_ok self w idx).
Proof.
  unfold ModelNetPointCloud_getitem.
  destruct (at_raised _); [done|]. by destruct (at_pts _).
Qed.

Lemma try_block_self (self : pointcloud) w idx :
  at_self (try_block from_off mesh_sample device_ok self w idx)
  = (full_points from_off mesh_sample self (torch_rng w) idx).1.2.
Proof.
  unfold try_block.
  destruct (full_points _ _ _ _ _) as [[[full|e] self'] gen']; [|done].
  by rewrite downsample_self.
Qed.

(** One access keeps the object and extends its cache. *)
Lemma getitem_step (self : pointcloud) w idx :
  same_object self (getitem self w idx).1.2
  ∧ cache_extends self (getitem self w idx).1.2.
Proof.
  rewrite getitem_self, try_block_self.
  destruct (full_points from_off mesh_sample self (torch_rng w) idx)
    as [[r self'] gen'] eqn:H.
  apply full_points_spec in H as (? & ? & _). done.
Qed.

Lemma accesses_step (self : pointcloud) w idxs :
  same_object self (run self w idxs).1
  ∧ cache_extends self (run self w idxs).1.
Proof.
  revert self w. induction idxs as [|idx rest IH]; intros self w;
    cbn [accesses].
  - split; [apply same_object_refl | by intros ??].
  - pose proof (getitem_step self w idx) as [Hobj Hext].
    destruct (getitem self w idx) as [[o self'] w']. simpl in *.
    destruct (IH self' w') as [Hobj' Hext'].
    split; [by eapply same_object_trans|].
    intros i v Hi. by apply Hext', Hext.
Qed.

(** C6: an entry of the cache, once there, keeps its value through every
    later run of accesses; nothing overwrites or evicts it. *)
Theorem cache_entry_never_overwritten
    (self : ModelNetPointCloud (Mesh := Mesh) (Row := Row) (Grid := Grid)
                               (Device := Device))
    (w : world (Gen := Gen)) (idxs : list Z) (i : Z) (full_pts : list Row) :
  pc_sample_cache self !! i = Some full_pts →
  pc_sample_cache (accesses from_off mesh_sample device_ok self w idxs).1 !! i
  = Some full_pts.
Proof.
  intros Hcached.
  destruct (accesses_step self w idxs) as [_ Hextends].
  by apply Hextends.
Qed.

(** The full-resolution cloud is what lines 157-162 compute. *)
Lemma full_resolution_full_points (self : pointcloud) (w : world_t) idx full_pts :
  full_resolution from_off mesh_sample self w idx full_pts →
  ∃ self' gen',
    full_points from_off mesh_sample self (torch_rng w) idx
    = (Return full_pts, self', gen')
    ∧ same_object self self'.
Proof.
  unfold full_resolution, full_points.
  intros [Hhit | (Hmiss & mesh & gen' & Hload & Hsample)].
  - rewrite Hhit. exists self, (torch_rng w). split; [done|].
    apply same_object_refl.
  - rewrite Hmiss, Hload, Hsample.
    exists (set_cache self idx full_pts), gen'. split; [done|].
    by repeat split.
Qed.

Lemma full_points_full_resolution (self : pointcloud) (w : world_t) idx
    full_pts self' gen' :
  full_points from_off mesh_sample self (torch_rng w) idx
  = (Return full_pts, self', gen') →
  full_resolution from_off mesh_sample self w idx full_pts.
Proof.
  unfold full_resolution, full_points.
  destruct (pc_sample_cache self !! idx) as [cached|] eqn:Hc.
  { intros [= <- _ _]. by left. }
  destruct (path <- py_index (pc_paths self) idx;; from_off path)
    as [mesh|] eqn:Hload; [|done].
  destruct (mesh_sample mesh (pc_sample_points self) (torch_rng w))
    as [[pts|] g] eqn:Hs; [|done].
  intros [= <- _ <-]. right. split; [done|]. by exists mesh, g.
Qed.

(** C8: whatever stage of the [try] block of
    [ModelNetPointCloud.__getitem__] raises (reading the mesh of a miss,
    sampling it, drawing the rows, placing them on the device, transforming
    them), the bare [except:] catches that exception and enters the
    debugger, and line 173 then runs with [pts] as the block left it.  The
    handler is entered only for such an exception, and the one exception
    that can reach the caller is the [UnboundLocalError] of line 173 after
    the handler: no error of the block is propagated as itself. *)
Theorem getitem_swallows_exceptions
    (self : ModelNetPointCloud (Mesh := Mesh) (Row := Row) (Grid := Grid)
                               (Device := Device))
    (w : world (Gen := Gen)) (idx : Z) :
  (∀ s e pts,
     stage_raises from_off mesh_sample device_ok self w idx s e pts →
     (ModelNetPointCloud_getitem from_off mesh_sample device_ok self w idx).1.1
     = Breakpoint e pts)
  ∧ (∀ e,
       out_caught
         (ModelNetPointCloud_getitem from_off mesh_sample device_ok self w idx).1.1
       = Some e →
       ∃ s pts, stage_raises from_off mesh_sample device_ok self w idx s e pts)
  ∧ (∀ e,
       out_result
         (ModelNetPointCloud_getitem from_off mesh_sample device_ok self w idx).1.1
       = Raise e →
       e = UnboundLocalError "pts"
       ∧ is_Some
           (out_caught
              (ModelNetPointCloud_getitem from_off mesh_sample device_ok
                 self w idx).1.1)).
Proof.
  split_and!.
  - intros s e pts Hs. unfold ModelNetPointCloud_getitem, try_block.
    destruct s; cbn [stage_raises] in Hs.
    + destruct Hs as (Hmiss & Hload & ->).
      unfold full_points. by rewrite Hmiss, Hload.
    + destruct Hs as (Hmiss & (mesh & gen' & Hload & Hsample) & ->).
      unfold full_points. by rewrite Hmiss, Hload, Hsample.
    + destruct Hs as ((full & Hfull & Hdraw) & ->).
      apply full_resolution_full_points in Hfull
        as (self' & gen' & -> & (_&_&_&_&_&Hn&_)).
      unfold downsample. rewrite Hn. cbn [np_rng].
      destruct Hdraw as [(np' & ->) | (idxs & np' & -> & ->)]; done.
    + destruct Hs as (full & rows & Hfull & (idxs & np' & Hch & Hrows)
                      & Hdev & ->).
      apply full_resolution_full_points in Hfull
        as (self' & gen' & -> & (_&_&_&Hd&_&Hn&_)).
      unfold downsample. rewrite Hn, Hd. cbn [np_rng].
      by rewrite Hch, Hrows, Hdev.
    + destruct Hs as (full & rows & placed & Hfull
                      & (idxs & np' & Hch & Hrows) & Hdev & Htr & ->).
      apply full_resolution_full_points in Hfull
        as (self' & gen' & -> & (_&_&_&Hd&Ht&Hn&_)).
      unfold downsample. rewrite Hn, Hd, Ht. cbn [np_rng].
      by rewrite Hch, Hrows, Hdev, Htr.
  - intros e. unfold ModelNetPointCloud_getitem, try_block. cbn [fst out_caught].
    destruct (full_points from_off mesh_sample self (torch_rng w) idx)
      as [[[full|e0] self'] gen'] eqn:Hfull.
    + pose proof (full_points_full_resolution _ _ _ _ _ _ Hfull) as Hres.
      apply full_points_spec in Hfull as ((_&_&_&Hd&Ht&Hn&_) & _).
      unfold downsample. rewrite Hn, Hd, Ht. cbn [np_rng].
      destruct (np_random_choice _ _ _) as [[idxs|e1] np'] eqn:Hch.
      2:{ intros [= <-]. exists Downsampling, None. cbn [stage_raises].
          split; [|done]. exists full. split; [done|]. left. by exists np'. }
      destruct (index_rows full idxs) as [rows|e1] eqn:Hrows.
      2:{ intros [= <-]. exists Downsampling, None. cbn [stage_raises].
          split; [|done]. exists full. split; [done|]. right.
          by exists idxs, np'. }
      destruct (to_device device_ok rows (pc_device self)) as [placed|e1]
        eqn:Hdev.
      2:{ intros [= <-]. exists Placing, (Some (VTensor rows)).
          cbn [stage_raises]. exists full, rows.
          split_and!; [done | by exists idxs, np' | done | done]. }
      destruct (apply_transform (pc_transform self) (VTensor placed))
        as [v|e1] eqn:Htr; [done|].
      intros [= <-]. exists Transforming, (Some (VTensor placed)).
      cbn [stage_raises]. exists full, rows, placed.
      split_and!; [done | by exists idxs, np' | done | done | done].
    + cbn [at_raised]. intros [= <-]. unfold full_points in Hfull.
      destruct (pc_sample_cache self !! idx) as [cached|] eqn:Hc; [done|].
      destruct (path <- py_index (pc_paths self) idx;; from_off path)
        as [mesh|e1] eqn:Hload.
      * destruct (mesh_sample mesh (pc_sample_points self) (torch_rng w))
          as [[pts|e2] g] eqn:Hs; [done|].
        injection Hfull as <- _ _. exists Sampling, None. cbn [stage_raises].
        split_and!; [done | by exists mesh, g | done].
      * injection Hfull as <- _ _. exists Loading, None. by cbn [stage_raises].
  - intros e. unfold ModelNetPointCloud_getitem. cbn [fst out_result out_caught].
    pose proof (try_block_pts self w idx) as Hpts.
    destruct (at_pts _) as [v|]; [done|]. cbn [return_pts]. intros [= <-].
    split; [done|].
    destruct (at_raised _) as [e'|]; [by eexists|].
    by destruct Hpts as [? ?].
Qed.

(** The stages of the block, one by one: a mesh that cannot be loaded ... *)
Lemma getitem_load_error (self : pointcloud) (w : world_t) idx e :
  pc_sample_cache self !! idx = None →
  (path <- py_index (pc_paths self) idx ;; from_off path) = Raise e →
  getitem self w idx = (Breakpoint e None, self, w).
Proof.
  intros Hc Hload. unfold ModelNetPointCloud_getitem, try_block, full_points.
  rewrite Hc, Hload. simpl. by destruct w.
Qed.

(** ... a request for more points than were sampled ... *)
Lemma getitem_choice_error (self : pointcloud) (w : world_t) idx full_pts :
  pc_sample_cache self !! idx = Some full_pts →
  length full_pts < pc_num_points self →
  getitem self w idx = (Breakpoint ChoiceError None, self, w).
Proof.
  intros Hc Hlt.
  unfold ModelNetPointCloud_getitem, try_block, full_points, downsample.
  rewrite Hc. simpl. rewrite np_random_choice_raises by done. simpl.
  by destruct w.
Qed.

(** ... and a transform that raises: the handler is entered with [pts]
    still bound to the points the transform was given. *)
Lemma getitem_transform_error (self : pointcloud) (w : world_t) idx full_pts f :
  pc_sample_cache self !! idx = Some full_pts →
  pc_num_points self ≤ length full_pts →
  device_ok (pc_device self) = true →
  pc_transform self = Some f →
  (∀ x, is_raise (f x) = true) →
  ∃ e pts, (getitem self w idx).1.1 = Breakpoint e (Some (VTensor pts)).
Proof.
  intros Hc Hle Hdev Hf Hraise.
  unfold ModelNetPointCloud_getitem, try_block, full_points, downsample.
  rewrite Hc. simpl.
  destruct (np_random_choice_returns (length full_pts) (pc_num_points self)
              (np_rng w) Hle) as (idxs & st' & -> & Hlen & Hnd & Hall).
  destruct (index_rows_returns full_pts idxs Hall) as (rows & -> & _).
  unfold to_device. rewrite Hdev, Hf. simpl.
  specialize (Hraise (VTensor rows)).
  destruct (f (VTensor rows)) as [v|e]; [done|]. simpl. eauto.
Qed.

(** With a sampler that yields as many points as it is asked for, every
    cached cloud has [sample_points] rows, access after access. *)
Lemma getitem_cache_sized (self : pointcloud) (w : world_t) idx :
  (∀ mesh n gen pts gen',
     mesh_sample mesh n gen = (Return pts, gen') → length pts = n) →
  cache_sized self → cache_sized (getitem self w idx).1.2.
Proof.
  intros Hexact Hsized. rewrite getitem_self, try_block_self.
  destruct (full_points from_off mesh_sample self (torch_rng w) idx)
    as [[r self'] gen'] eqn:H.
  apply full_points_spec in H as (Hobj & _ & Hnew & _). simpl.
  destruct Hobj as (_&_&_&_&_&_&Hsp).
  intros i v Hi. rewrite Hsp.
  destruct (Hnew i v Hi) as [Hold | (_ & _ & mesh & Hs)].
  - by apply (Hsized i).
  - by apply Hexact in Hs.
Qed.

Lemma accesses_cache_sized (self : pointcloud) (w : world_t) idxs :
  (∀ mesh n gen pts gen',
     mesh_sample mesh n gen = (Return pts, gen') → length pts = n) →
  cache_sized self → cache_sized (run self w idxs).1.
Proof.
  intros Hexact. revert self w.
  induction idxs as [|idx rest IH]; intros self w Hsized; cbn [accesses];
    [done|].
  pose proof (getitem_cache_sized self w idx Hexact Hsized) as Hstep.
  destruct (getitem self w idx) as [[o self'] w']. by apply IH.
Qed.

(** An access of an index whose cloud is cached and large enough. *)
Lemma getitem_cached (self : pointcloud) (w : world_t) idx full_pts :
  pc_sample_cache self !! idx = Some full_pts →
  pc_num_points self ≤ length full_pts →
  device_ok (pc_device self) = true →
  ∃ idxs pts,
    length idxs = pc_num_points self ∧ NoDup idxs
    ∧ index_rows full_pts idxs = Return pts
    ∧ length pts = pc_num_points self
    ∧ (getitem self w idx).1.1
      = match apply_transform (pc_transform self) (VTensor pts) with
        | Return v => Returned v
        | Raise e => Breakpoint e (Some (VTensor pts))
        end
    ∧ (getitem self w idx).1.2 = self.
Proof.
  intros Hc Hle Hdev.
  unfold ModelNetPointCloud_getitem, try_block, full_points, downsample.
  rewrite Hc. simpl.
  destruct (np_random_choice_returns (length full_pts) (pc_num_points self)
              (np_rng w) Hle) as (idxs & st' & -> & Hlen & Hnd & Hall).
  destruct (index_rows_returns full_pts idxs Hall) as (rows & Hrows & Hlr).
  exists idxs, rows. rewrite Hrows. unfold to_device. rewrite Hdev.
  split_and!; [done | done | done | congruence | |];
    by destruct (apply_transform (pc_transform self) (VTensor rows)).
Qed.

(** C5, amended: for a constructed [ModelNetPointCloud] with
    [num_points <= sample_points], an accepted device and a sampler that
    yields as many points as it is asked for, an access of an index whose
    cache entry is populated finds a cached cloud of [sample_points] rows,
    draws [num_points] distinct row positions of it and takes those rows;
    the subsample is returned as it is when there is no transform, and is
    otherwise handed to the transform, whose result is returned.  The cache
    is left as it was. *)
Theorem cached_access_subsamples fs basedir split categories
    (device : Device) transform (num_points sample_points : nat)
    (self0 self : pointcloud) (w0 w : world_t) (before : list Z)
    (idx : Z) (full_pts : list Row) :
  (∀ mesh n gen pts gen',
     mesh_sample mesh n gen = (Return pts, gen') → length pts = n) →
  ModelNetPointCloud_init fs basedir split categories device transform
    num_points sample_points = Return self0 →
  run self0 w0 before = (self, w) →
  pc_sample_cache self !! idx = Some full_pts →
  num_points ≤ sample_points →
  device_ok device = true →
  length full_pts = sample_points
  ∧ ∃ idxs pts,
      length idxs = num_points ∧ NoDup idxs
      ∧ index_rows full_pts idxs = Return pts
      ∧ length pts = num_points
      ∧ (getitem self w idx).1.1
        = match apply_transform transform (VTensor pts) with
          | Return v => Returned v
          | Raise e => Breakpoint e (Some (VTensor pts))
          end
      ∧ pc_sample_cache (getitem self w idx).1.2 = pc_sample_cache self.
Proof.
  intros Hexact Hinit Hrun Hc Hle Hdev.
  assert (pc_device self0 = device ∧ pc_transform self0 = transform
          ∧ pc_num_points self0 = num_points
          ∧ pc_sample_points self0 = sample_points
          ∧ pc_sample_cache self0 = ∅) as (Hd & Ht & Hn & Hs & He).
  { unfold ModelNetPointCloud_init in Hinit.
    destruct (negb _); [done|].
    destruct (iterdir fs basedir); [|done]. simpl in Hinit.
    destruct (scan_categories _ _ _ _ _ _ _); [|done].
    by injection Hinit as <-. }
  pose proof (accesses_step self0 w0 before) as [Hobj _].
  pose proof (accesses_cache_sized self0 w0 before Hexact) as Hsized.
  rewrite Hrun in Hobj, Hsized. simpl in Hobj, Hsized.
  destruct Hobj as (_&_&_&Hd'&Ht'&Hn'&Hs').
  assert (length full_pts = sample_points) as Hfull.
  { rewrite <- Hs, <- Hs'. apply (Hsized ltac:(by intros ??; rewrite He) idx), Hc. }
  split; [done|].
  destruct (getitem_cached self w idx full_pts Hc) as
    (idxs & pts & ? & ? & ? & ? & Hout & Hself); [lia | congruence |].
  exists idxs, pts. rewrite Hself.
  split_and!; [congruence | done | done | congruence | | done].
  by rewrite Hout, Ht', Ht.
Qed.

Abbreviation adapter_t := (adapter (Mesh := Mesh) (Row := Row) (Grid := Grid)
                             (Device := Device)).
Abbreviation item := (adapter_getitem from_off mesh_sample device_ok loadmat
                        float_tensor platform).
Abbreviation items := (adapter_accesses from_off mesh_sample device_ok loadmat
                         float_tensor platform).

(** No access changes the length of an adapter. *)
Lemma adapter_getitem_len (a : adapter_t) (w : world_t) idx :
  adapter_len (item a w idx).1.2 = adapter_len a.
Proof.
  destruct a as [self|self|self]; cbn [adapter_getitem].
  - by destruct (ModelNet_getitem _ _ _ _ _ _) as [[v|e] gen'].
  - pose proof (getitem_step self w idx) as [(_&Hp&_) _].
    destruct (getitem self w idx) as [[o self'] w']. simpl in *.
    unfold ModelNetPointCloud_len. by rewrite Hp.
  - by destruct (ModelNetVoxels_getitem _ _ _ _ _).
Qed.

Lemma adapter_accesses_len (a : adapter_t) (w : world_t) idxs :
  adapter_len (items a w idxs).1 = adapter_len a.
Proof.
  revert a w. induction idxs as [|idx rest IH]; intros a w;
    cbn [adapter_accesses]; [done|].
  pose proof (adapter_getitem_len a w idx) as Hstep.
  destruct (item a w idx) as [[o a'] w']. simpl in Hstep.
  by rewrite IH.
Qed.

(** A call of [glob] that returns shows which function [glob] is bound to. *)
Lemma glob_call_Return ns pattern found :
  glob_call ns pattern = Return found →
  ∃ g, ns "glob" = Some (ObjGlob g) ∧ found = g pattern.
Proof.
  unfold glob_call, load_global. destruct (ns "glob") as [[m|g|]|]; try done.
  simpl. intros [= <-]. eauto.
Qed.

Lemma voxel_scan_length ns g root side train test all_classes categories :
  ns "glob" = Some (ObjGlob g) →
  ∀ names names',
    voxel_scan ns root side train test all_classes categories names
    = Return names' →
    length names' = length names + mat_matches g root side train test categories.
Proof.
  intros Hg. unfold mat_matches.
  induction categories as [|cat rest IH]; intros names names' H;
    simpl in H; csimpl.
  - injection H as <-. lia.
  - destruct (negb (bool_decide (cat ∈ all_classes))); [done|].
    unfold glob_call, load_global in H. rewrite Hg in H. simpl in H.
    destruct train, test; simpl in H; apply IH in H; rewrite H;
      rewrite ?length_app; lia.
Qed.

Lemma ModelNetVoxels_init_length ns root train test download categories
    single_view self :
  ModelNetVoxels_init ns root train test download categories single_view
  = Return self →
  ∃ g, ns "glob" = Some (ObjGlob g)
       ∧ ModelNetVoxels_len self
         = mat_matches g root (if negb single_view then "" else "_1")
             train test categories.
Proof.
  unfold ModelNetVoxels_init. intros H.
  destruct (os_path ns) as [os|]; [|done]. simpl in H.
  match type of H with
  | (_ <- ?guard ;; _) = _ => destruct guard; [|done]
  end. simpl in H.
  destruct (glob_call ns _) as [dirs|] eqn:Hdirs; [|done]. simpl in H.
  apply glob_call_Return in Hdirs as (g & Hg & _).
  destruct (mapM_result _ dirs) as [all_classes|]; [|done]. simpl in H.
  destruct (voxel_scan _ _ _ _ _ _ _ _) as [names|] eqn:Hscan; [|done].
  simpl in H. injection H as <-.
  exists g. split; [done|].
  apply (voxel_scan_length _ g) in Hscan; [|done].
  unfold ModelNetVoxels_len. simpl in *. lia.
Qed.

(** C4: the length of a constructed adapter is the number of files its
    constructor's scan matched (the [*.off] matches under
    [basedir/category/split], summed over the categories, for [ModelNet]
    and [ModelNetPointCloud]; the .mat matches of the selected splits for
    [ModelNetVoxels]), and no run of accesses changes it. *)
Theorem len_is_number_of_matches fs ns
    (c : ctor_call (Mesh := Mesh) (Row := Row) (Grid := Grid) (Device := Device))
    (a : adapter_t) :
  construct fs ns c = Return a →
  adapter_len a = scan_matches fs ns c a
  ∧ ∀ (w : world_t) idxs, adapter_len (items a w idxs).1 = adapter_len a.
Proof.
  intros Hc. split; [|intros; apply adapter_accesses_len].
  destruct c as [b rep s cs dev tr kw | b s cs dev tr np sp
                | root train test download cs sv].
  - destruct (scanning_construct_inv fs ns (NewModelNet b rep s cs dev tr kw)
                a b s cs eq_refl Hc) as (entries & _ & _ & Hidx & Hlen).
    rewrite Hlen, Hidx, sample_index_length.
    simpl in Hc. destruct (ModelNet_init _ _ _ _ _ _ _ _); [|done].
    by injection Hc as <-.
  - destruct (scanning_construct_inv fs ns
                (NewModelNetPointCloud b s cs dev tr np sp) a b s cs eq_refl Hc)
      as (entries & _ & _ & Hidx & Hlen).
    rewrite Hlen, Hidx, sample_index_length.
    simpl in Hc. destruct (ModelNetPointCloud_init _ _ _ _ _ _ _ _); [|done].
    by injection Hc as <-.
  - simpl in Hc.
    destruct (ModelNetVoxels_init _ _ _ _ _ _ _) as [self|] eqn:Hinit; [|done].
    injection Hc as <-. simpl.
    apply ModelNetVoxels_init_length in Hinit as (g & -> & Hlen). done.
Qed.

(** What the [try] block has bound [pts] to, when it has. *)
Lemma downsample_pts_shape (self : pointcloud) (w : world_t) full_pts v :
  at_pts (downsample device_ok self w full_pts) = Some v →
  ∃ idxs pts,
    length idxs = pc_num_points self ∧ NoDup idxs
    ∧ index_rows full_pts idxs = Return pts
    ∧ length pts = pc_num_points self
    ∧ match at_raised (downsample device_ok self w full_pts) with
      | None => apply_transform (pc_transform self) (VTensor pts) = Return v
      | Some _ => v = VTensor pts
      end.
Proof.
  unfold downsample.
  destruct (np_random_choice _ _ _) as [[idxs|e] np'] eqn:Hch; [|done].
  apply np_random_choice_inv in Hch as (_ & Hlen & Hnd & _).
  destruct (index_rows full_pts idxs) as [rows|] eqn:Hrows; [|done].
  pose proof (index_rows_length _ _ _ Hrows) as Hlr.
  unfold to_device. destruct (device_ok _); simpl.
  - destruct (apply_transform _ _) as [v'|] eqn:Htr; simpl;
      intros [= <-]; exists idxs, rows; split_and!; try done; congruence.
  - intros [= <-]. exists idxs, rows. split_and!; try done; congruence.
Qed.

Lemma try_block_pts_shape (self : pointcloud) (w : world_t) idx v :
  at_pts (try_block from_off mesh_sample device_ok self w idx) = Some v →
  ∃ full_pts idxs pts,
    pc_sample_cache (at_self (try_block from_off mesh_sample device_ok self w idx))
      !! idx = Some full_pts
    ∧ length idxs = pc_num_points self ∧ NoDup idxs
    ∧ index_rows full_pts idxs = Return pts
    ∧ length pts = pc_num_points self
    ∧ match at_raised (try_block from_off mesh_sample device_ok self w idx) with
      | None => apply_transform (pc_transform self) (VTensor pts) = Return v
      | Some _ => v = VTensor pts
      end.
Proof.
  unfold try_block.
  destruct (full_points from_off mesh_sample self (torch_rng w) idx)
    as [[[full|e] self'] gen'] eqn:Hfull; [|done].
  apply full_points_spec in Hfull as ((_&_&_&_&Ht&Hn&_) & _ & _ & Hin).
  specialize (Hin full eq_refl).
  intros Hpts. apply downsample_pts_shape in Hpts
    as (idxs & pts & ? & ? & ? & ? & Hv).
  rewrite downsample_self, <- Ht, <- Hn.
  by exists full, idxs, pts.
Qed.

(** C1, amended: the value a call of [__getitem__] returns is, from
    [ModelNet], the pair of the sample (the mesh read from [paths[idx]], or
    the points sampled from it in the point-cloud representation, passed
    through the transform if there is one) and a one-element integer tensor
    holding [labels[idx]]; from [ModelNetVoxels], the dictionary whose
    [attributes] are the name and class read off the stored path and whose
    [data] holds the voxels of the file's [instance] array; from
    [ModelNetPointCloud], a point cloud alone, with no label: [num_points]
    rows at distinct positions of the cloud cached for the index, passed
    through the transform if there is one, or, when the device placement or
    the transform raised and the handler caught it, those rows as line 173
    finds them in [pts]. *)
Theorem getitem_returns_built_shape (a a' : adapter_t) (w w' : world_t)
    (idx : Z) (o : outcome) (v : pyval) :
  item a w idx = (o, a', w') →
  out_result o = Return v →
  built_shape from_off mesh_sample loadmat float_tensor platform
    a a' w idx (out_caught o) v.
Proof.
  destruct a as [self|self|self]; cbn [adapter_getitem built_shape].
  - unfold ModelNet_getitem.
    destruct (py_index (mn_paths self) idx) as [path|]; simpl;
      [|by intros [= <- _ _]].
    destruct (from_off path) as [mesh|] eqn:Hmesh; simpl;
      [|by intros [= <- _ _]].
    unfold to_device. destruct (device_ok (mn_device self)); simpl;
      [|by intros [= <- _ _]].
    destruct (py_index (mn_labels self) idx) as [l|]; simpl;
      [|by intros [= <- _ _]].
    destruct (String.eqb (mn_rep self) "mesh") eqn:Hrep.
    { apply String.eqb_eq in Hrep.
      destruct (apply_transform _ _) as [sample|] eqn:Htr; simpl;
        intros [= <- _ _]; [|done]. simpl. intros [= <-].
      exists path, mesh, l, sample. split_and!; try done. by left. }
    destruct (String.eqb (mn_rep self) "pointcloud") eqn:Hrep';
      [|by intros [= <- _ _]].
    apply String.eqb_eq in Hrep'.
    destruct (mesh_sample _ _ _) as [[pts|] gen'] eqn:Hs;
      [|by intros [= <- _ _]].
    destruct (apply_transform _ _) as [sample|] eqn:Htr; simpl;
      intros [= <- _ _]; [|done]. simpl. intros [= <-].
    exists path, mesh, l, sample. split_and!; try done.
    right. split; [done|]. by exists pts, gen'.
  - unfold ModelNetPointCloud_getitem. intros [= <- <- _]. simpl.
    destruct (at_pts _) as [pts|] eqn:Hpts; simpl; [|done].
    intros [= <-]. by apply try_block_pts_shape.
  - unfold ModelNetVoxels_getitem.
    destruct (py_index (vx_names self) idx) as [stored|] eqn:Hst; simpl;
      [|by intros [= <- _ _]].
    destruct (py_index _ (-4)) as [object_class|] eqn:Hcl; simpl;
      [|by intros [= <- _ _]].
    destruct (py_index _ (-1)) as [object_name|] eqn:Hnm; simpl;
      [|by intros [= <- _ _]].
    destruct (loadmat _) as [mat|] eqn:Hmat; simpl; [|by intros [= <- _ _]].
    destruct (mat !! "instance") as [data|] eqn:Hinst; simpl;
      [|by intros [= <- _ _]].
    destruct (float_tensor data) as [voxels|] eqn:Hfl; simpl;
      intros [= <- _ _]; [|done]. simpl. intros [= <-].
    by exists stored, mat, data, voxels, object_name, object_class.
Qed.

(** With a mesh that loads and an accepted device, an access of [ModelNet]
    in its mesh representation does return. *)
Lemma ModelNet_getitem_returns
    (self : ModelNet (Mesh := Mesh) (Row := Row) (Grid := Grid) (Device := Device))
    (gen : Gen) idx path l mesh :
  py_index (mn_paths self) idx = Return path →
  py_index (mn_labels self) idx = Return l →
  from_off path = Return mesh →
  device_ok (mn_device self) = true →
  mn_rep self = "mesh" → mn_transform self = None →
  ModelNet_getitem from_off mesh_sample device_ok self gen idx
  = (Return (VTuple [VMesh mesh; VLongTensor [Z.of_nat l]]), gen).
Proof.
  intros Hp Hl Hm Hd Hrep Ht. unfold ModelNet_getitem, to_device.
  by rewrite Hp, Hl, Hrep, Ht; simpl; rewrite Hm; simpl; rewrite Hd.
Qed.

End AccessProperties.

(** ** Labels *)

Section LabelProperties.

Context {Mesh Row Grid Device : Type}.

Lemma sample_index_elem_of fs basedir split cats p l :
  ∀ idx,
    (p, l) ∈ sample_index fs basedir split idx cats
    ↔ ∃ i cat, l = idx + i ∧ cats !! i = Some cat
               ∧ p ∈ off_files fs basedir split cat.
Proof.
  induction cats as [|c rest IH]; intros idx; simpl.
  - split; [by intros ?%not_elem_of_nil | by intros (i & cat & _ & ? & _)].
  - rewrite elem_of_app, IH, list_elem_of_fmap. split.
    + intros [(q & [= -> ->] & Hq) | (i & cat & -> & Hi & Hp)].
      * exists 0, c. split_and!; [lia | done | done].
      * exists (S i), cat. split_and!; [lia | done | done].
    + intros ([|i] & cat & -> & Hi & Hp); simpl in Hi.
      * injection Hi as ->. left. exists p. split; [f_equal; lia | done].
      * right. exists i, cat. split_and!; [lia | done | done].
Qed.

(** C7: labels are positions in the category list.  For a construction
    with an explicit category list, the sample index pairs a path with
    label [l] exactly when the path is a match of the [l]-th category of
    [self.categories]; every match of the [i]-th category of the supplied
    list carries label [i]; a non-empty supplied list is [self.categories]
    itself; and a second construction over the same tree with the same
    list (whatever its other arguments) has the same category-to-label
    mapping. *)
Theorem labels_positional_and_stable fs ns
    (c1 c2 : ctor_call (Mesh := Mesh) (Row := Row) (Grid := Grid)
                       (Device := Device))
    (a1 a2 : adapter) basedir split1 split2 cats :
  off_scan c1 = Some (basedir, split1, Some cats) →
  off_scan c2 = Some (basedir, split2, Some cats) →
  construct fs ns c1 = Return a1 →
  construct fs ns c2 = Return a2 →
  (∀ p l, (p, l) ∈ adapter_index a1
          ↔ ∃ cat, adapter_categories a1 !! l = Some cat
                   ∧ p ∈ off_files fs basedir split1 cat)
  ∧ (∀ i cat p, cats !! i = Some cat → p ∈ off_files fs basedir split1 cat →
                (p, i) ∈ adapter_index a1)
  ∧ (cats ≠ [] → adapter_categories a1 = cats)
  ∧ category_labels (adapter_categories a1)
    = category_labels (adapter_categories a2).
Proof.
  intros Hs1 Hs2 Hc1 Hc2.
  destruct (scanning_construct_inv fs ns c1 a1 _ _ _ Hs1 Hc1)
    as (entries & Hdir & Hcats & Hidx & _).
  destruct (scanning_construct_inv fs ns c2 a2 _ _ _ Hs2 Hc2)
    as (entries' & Hdir' & Hcats' & _ & _).
  assert (entries' = entries) as -> by congruence.
  assert (∀ p l, (p, l) ∈ adapter_index a1
                 ↔ ∃ cat, adapter_categories a1 !! l = Some cat
                          ∧ p ∈ off_files fs basedir split1 cat) as Hpos.
  { intros p l. rewrite Hidx, sample_index_elem_of. split.
    - intros (i & cat & -> & ? & ?). by exists cat.
    - intros (cat & ? & ?). by exists l, cat. }
  assert (cats ≠ [] → adapter_categories a1 = cats) as Hne.
  { intros ?. rewrite Hcats. by destruct cats. }
  split_and!; [done | | done | by rewrite Hcats, Hcats'].
  intros i cat p Hi Hp. apply Hpos. exists cat. split; [|done].
  rewrite Hne; [done|]. intros ->. by rewrite lookup_nil in Hi.
Qed.

End LabelProperties.

(** ** The demo data set, checked *)

(** Had the module imported [os] and [glob], the constructor of
    [ModelNetVoxels] would scan, and validate its categories. *)
Example voxels_with_imports_scans :
  ModelNetVoxels_init demo_installed "root" true true true ["chair"] true
  = Return {| vx_names :=
       ["root/ModelNet/volumetric_data/chair/30/train/chair_000000182_1.mat"] |}.
Proof. vm_compute; reflexivity. Qed.

Example voxels_with_imports_validates :
  ModelNetVoxels_init demo_installed "root" true true true ["nonexistent"] true
  = Raise (AssertionError
             "object class nonexistent not in list of availible classes").
Proof. vm_compute; reflexivity. Qed.

Example voxels_getitem_demo :
  ModelNetVoxels_getitem (Mesh := nat) (Row := nat) demo_loadmat
    demo_float_tensor "linux"
    {| vx_names :=
         ["root/ModelNet/volumetric_data/chair/30/train/chair_000000182_1.mat"] |}
    0
  = Return (VDict [ ("attributes", VDict [ ("name", VStr "chair_000000182_1.mat");
                                           ("class", VStr "chair") ]);
                    ("data", VDict [ ("voxels", VVoxels 66) ]) ]).
Proof. vm_compute; reflexivity. Qed.

Example modelnet_unknown_category :
  construct demo_fs demo_installed (demo_modelnet_call "mesh" "train" (Some ["sofa"]))
  = Raise (ValueError (BadClass "sofa" ["chair"; "desk"])).
Proof. vm_compute; reflexivity. Qed.

Example np_random_choice_demo :
  np_random_choice 4 2 [5; 3; 1] = (Return [2; 3], []).
Proof. vm_compute; reflexivity. Qed.

Lemma demo_sampler_exact :
  ∀ (mesh n gen : nat) pts gen',
    demo_mesh_sample mesh n gen = (Return pts, gen') → length pts = n.
Proof. intros mesh n gen pts gen' [= <- _]. apply length_seq. Qed.

(** C1 as stated fails: the constructed [ModelNetPointCloud] of the demo
    data returns, at the valid index 0, a bare tensor of two rows and not a
    (sample, label) pair. *)
Lemma pointcloud_returns_no_label :
  construct demo_fs demo_installed (demo_pointcloud_call 2 4)
  = Return (AModelNetPointCloud (demo_pointcloud 2 4))
  ∧ valid_index (pc_paths (demo_pointcloud 2 4)) 0
  ∧ (demo_item (AModelNetPointCloud (demo_pointcloud 2 4)) demo_world 0).1.1
    = Returned (VTensor [2; 3])
  ∧ stated_shape (AModelNetPointCloud (demo_pointcloud 2 4)) (VTensor [2; 3])
    = false.
Proof.
  split_and!; [reflexivity | unfold valid_index; simpl; lia
              | vm_compute; reflexivity | reflexivity].
Qed.

(** C5 as stated fails: constructed with [num_points = 3] and
    [sample_points = 2], the adapter caches a cloud of two rows at the first
    access of index 0, and the next access of that index returns no point
    cloud: the draw of three distinct rows out of two raises, and the
    handler enters the debugger with [pts] unassigned. *)
Lemma oversized_request_returns_no_cloud :
  construct demo_fs demo_installed (demo_pointcloud_call 3 2)
  = Return (AModelNetPointCloud (demo_pointcloud 3 2))
  ∧ valid_index (pc_paths (demo_pointcloud 3 2)) 0
  ∧ pc_sample_cache (demo_accesses (demo_pointcloud 3 2) demo_world [0%Z]).1
      !! 0%Z = Some [0; 1]
  ∧ (demo_getitem (demo_accesses (demo_pointcloud 3 2) demo_world [0%Z]).1
       (demo_accesses (demo_pointcloud 3 2) demo_world [0%Z]).2 0).1.1
    = Breakpoint ChoiceError None.
Proof.
  split_and!; [reflexivity | unfold valid_index; simpl; lia
              | vm_compute; reflexivity | vm_compute; reflexivity].
Qed.

(** C3 on the demo data: [rep='voxel'] is rejected. *)
Lemma unsupported_keyword_ValueError_witness :
  ∃ why,
    construct demo_fs demo_installed (demo_modelnet_call "voxel" "train" None)
    = Raise (ValueError why)
    ∧ (∃ kw, why = BadRep kw ∨ why = BadSplit kw).
Proof.
  apply (unsupported_keyword_ValueError (demo_modelnet_call "voxel" "train" None)).
  reflexivity.
Defined.

(** C4 on the demo data: three training meshes, before and after accesses. *)
Lemma len_is_number_of_matches_witness :
  adapter_len (AModelNet demo_modelnet) = 3
  ∧ adapter_len (demo_items (AModelNet demo_modelnet) demo_world [0; 2; 0]%Z).1
    = adapter_len (AModelNet demo_modelnet).
Proof.
  destruct (len_is_number_of_matches demo_from_off demo_mesh_sample
              demo_device_ok demo_loadmat demo_float_tensor "linux"
              demo_fs demo_installed
              (demo_modelnet_call "mesh" "train" (Some ["desk"; "chair"]))
              (AModelNet demo_modelnet) eq_refl) as [Hlen Hkeep].
  split; [exact Hlen | exact (Hkeep demo_world [0; 2; 0]%Z)].
Defined.

(** C5 (amended) on the demo data: two of four cached rows. *)
Lemma cached_access_subsamples_witness :
  length [0; 1; 2; 3] = 4
  ∧ ∃ idxs pts,
      length idxs = 2 ∧ NoDup idxs
      ∧ index_rows [0; 1; 2; 3] idxs = Return pts
      ∧ length pts = 2
      ∧ (demo_getitem (demo_accesses (demo_pointcloud 2 4) demo_world [0%Z]).1
           (demo_accesses (demo_pointcloud 2 4) demo_world [0%Z]).2 0).1.1
        = match apply_transform None (VTensor pts) with
          | Return v => Returned v
          | Raise e => Breakpoint e (Some (VTensor pts))
          end
      ∧ pc_sample_cache
          (demo_getitem (demo_accesses (demo_pointcloud 2 4) demo_world [0%Z]).1
             (demo_accesses (demo_pointcloud 2 4) demo_world [0%Z]).2 0).1.2
        = pc_sample_cache (demo_accesses (demo_pointcloud 2 4) demo_world [0%Z]).1.
Proof.
  apply (cached_access_subsamples demo_from_off demo_mesh_sample demo_device_ok
           demo_fs ["data"] "train" (Some ["desk"; "chair"]) true None 2 4
           (demo_pointcloud 2 4)
           (demo_accesses (demo_pointcloud 2 4) demo_world [0%Z]).1
           demo_world
           (demo_accesses (demo_pointcloud 2 4) demo_world [0%Z]).2
           [0%Z] 0 [0; 1; 2; 3]).
  - exact demo_sampler_exact.
  - reflexivity.
  - reflexivity.
  - vm_compute; reflexivity.
  - lia.
  - reflexivity.
Defined.

(** C6 on the demo data: the cloud cached for index 0 survives later
    accesses of indices 1, 0 and 2. *)
Lemma cache_entry_never_overwritten_witness :
  pc_sample_cache
    (demo_accesses (demo_accesses (demo_pointcloud 2 4) demo_world [0%Z]).1
       demo_world [1; 0; 2]%Z).1 !! 0%Z
  = Some [0; 1; 2; 3].
Proof.
  apply (cache_entry_never_overwritten demo_from_off demo_mesh_sample
           demo_device_ok).
  vm_compute; reflexivity.
Defined.

(** C8 on the demo data: the [ValueError] of the oversized draw is caught
    on the way into the debugger, and the caller gets the
    [UnboundLocalError] of line 173. *)
Lemma getitem_swallows_exceptions_witness :
  (demo_getitem (demo_pointcloud 3 2) demo_world 0).1.1
  = Breakpoint ChoiceError None
  ∧ out_result (Breakpoint (Mesh := nat) (Row := nat) (Grid := nat)
                  ChoiceError None)
    = Raise (UnboundLocalError "pts").
Proof.
  destruct (getitem_swallows_exceptions demo_from_off demo_mesh_sample
              demo_device_ok (demo_pointcloud 3 2) demo_world 0)
    as (Hcaught & _ & _).
  split; [|reflexivity].
  apply (Hcaught Downsampling ChoiceError None).
  split; [|reflexivity].
  exists [0; 1]. split.
  - right. split; [reflexivity|]. exists 4, 1. split; reflexivity.
  - left. exists [5; 3; 1]. reflexivity.
Defined.

(** C1 (amended) on the demo data: with a transform that raises, the
    point-cloud adapter returns the two rows it had drawn, untransformed,
    and nothing else. *)
Lemma getitem_returns_built_shape_witness :
  built_shape demo_from_off demo_mesh_sample demo_loadmat demo_float_tensor
    "linux"
    (AModelNetPointCloud demo_pointcloud_raising)
    (demo_item (AModelNetPointCloud demo_pointcloud_raising) demo_world 0).1.2
    demo_world 0 (Some (LibraryError 7)) (VTensor [2; 3]).
Proof.
  apply (getitem_returns_built_shape demo_from_off demo_mesh_sample
           demo_device_ok demo_loadmat demo_float_tensor "linux"
           (AModelNetPointCloud demo_pointcloud_raising)
           (demo_item (AModelNetPointCloud demo_pointcloud_raising) demo_world 0).1.2
           demo_world
           (demo_item (AModelNetPointCloud demo_pointcloud_raising) demo_world 0).2
           0 (Breakpoint (LibraryError 7) (Some (VTensor [2; 3])))
           (VTensor [2; 3])).
  - vm_compute; reflexivity.
  - reflexivity.
Defined.

(** C7 on the demo data: [ModelNet] and [ModelNetPointCloud] built with
    the list [desk, chair] agree on the labels, desk 0 and chair 1. *)
Lemma labels_positional_and_stable_witness :
  (demo_off "chair" "train" "chair_0002.off", 1)
    ∈ adapter_index (AModelNet demo_modelnet)
  ∧ category_labels (adapter_categories (AModelNet demo_modelnet))
    = category_labels
        (adapter_categories (AModelNetPointCloud (demo_pointcloud 2 4))).
Proof.
  destruct (labels_positional_and_stable demo_fs demo_installed
              (demo_modelnet_call "mesh" "train" (Some ["desk"; "chair"]))
              (demo_pointcloud_call 2 4)
              (AModelNet demo_modelnet)
              (AModelNetPointCloud (demo_pointcloud 2 4))
              ["data"] "train" "train" ["desk"; "chair"]
              eq_refl eq_refl eq_refl eq_refl)
    as (_ & Hlabel & _ & Hstable).
  split; [|exact Hstable].
  apply (Hlabel 1 "chair"); [reflexivity|].
  vm_compute. right. left.
Defined.

(** C10 on the demo data: [categories=[]] selects both directories. *)
Lemma empty_categories_select_all_witness :
  ∃ self,
    ModelNet_init (Mesh := nat) (Row := nat) (Grid := nat) demo_fs ["data"]
      "mesh" "train" (Some []) true None ∅ = Return self
    ∧ mn_categories self = avail_categories_of demo_entries
    ∧ ModelNet_len self
      = off_matches demo_fs ["data"] "train" (avail_categories_of demo_entries).
Proof.
  destruct (empty_categories_select_all (Mesh := nat) (Row := nat) (Grid := nat)
              demo_fs ["data"] "mesh" "train" true None ∅ 2 4)
    as (_ & _ & Hall).
  destruct (Hall demo_entries eq_refl ltac:(left)) as [Hmodelnet _].
  apply Hmodelnet. left.
Defined.

(** ** More on the constructors *)

Section ConstructorExtras.

Context {Mesh Row Grid Device : Type}.

Abbreviation ctor_t := (ctor_call (Mesh := Mesh) (Row := Row) (Grid := Grid)
                          (Device := Device)).
Abbreviation adapter_u := (adapter (Mesh := Mesh) (Row := Row) (Grid := Grid)
                             (Device := Device)).

(** What a returning scanning constructor has checked and built. *)
Lemma scanning_construct_Return fs ns (c : ctor_t) (a : adapter_u)
    basedir split categories :
  off_scan c = Some (basedir, split, categories) →
  construct fs ns c = Return a →
  unsupported_keyword c = false
  ∧ ∃ entries,
      iterdir fs basedir = Return entries
      ∧ adapter_categories a
        = categories_or categories (avail_categories_of entries)
      ∧ Forall (fun cat => cat ∈ avail_categories_of entries)
          (adapter_categories a)
      ∧ adapter_paths a
        = (sample_index fs basedir split 0 (adapter_categories a)).*1
      ∧ adapter_labels a
        = (sample_index fs basedir split 0 (adapter_categories a)).*2.
Proof.
  intros Hscan Hc.
  destruct c as [b rep s cs dev tr kw | b s cs dev tr np sp | ];
    simpl in Hscan; [| |done]; injection Hscan as -> -> ->; simpl in *.
  - unfold ModelNet_init in Hc.
    destruct (negb (bool_decide (rep ∈ ["mesh"; "pointcloud"]))); [done|].
    destruct (negb (bool_decide (split ∈ ["train"; "test"]))); [done|].
    split; [done|].
    destruct (iterdir fs basedir) as [entries|] eqn:Hdir; [|done].
    simpl in Hc. exists entries. split; [done|].
    set (avail := avail_categories_of entries) in *.
    set (cats := categories_or categories avail) in *.
    destruct (first_unknown avail cats) as [bad|] eqn:Hfirst.
    { by rewrite (scan_categories_unknown _ _ _ _ _ bad) in Hc. }
    apply first_unknown_None in Hfirst.
    rewrite scan_categories_known in Hc by done. simpl in Hc.
    by injection Hc as <-.
  - unfold ModelNetPointCloud_init in Hc.
    destruct (negb (bool_decide (split ∈ ["train"; "test"]))); [done|].
    split; [done|].
    destruct (iterdir fs basedir) as [entries|] eqn:Hdir; [|done].
    simpl in Hc. exists entries. split; [done|].
    set (avail := avail_categories_of entries) in *.
    set (cats := categories_or categories avail) in *.
    destruct (first_unknown avail cats) as [bad|] eqn:Hfirst.
    { by rewrite (scan_categories_unknown _ _ _ _ _ bad) in Hc. }
    apply first_unknown_None in Hfirst.
    rewrite scan_categories_known in Hc by done. simpl in Hc.
    by injection Hc as <-.
Qed.

(** Once the keywords are accepted and the directory is listed, a
    scanning constructor is the scan. *)
Lemma scanning_construct_scan fs ns (c : ctor_t) basedir split categories
    entries :
  off_scan c = Some (basedir, split, categories) →
  unsupported_keyword c = false →
  iterdir fs basedir = Return entries →
  is_raise (construct fs ns c)
  = is_raise (scan_categories fs basedir split (avail_categories_of entries) 0
                (categories_or categories (avail_categories_of entries)) ([], []))
  ∧ ∀ e, scan_categories fs basedir split (avail_categories_of entries) 0
           (categories_or categories (avail_categories_of entries)) ([], [])
         = Raise e →
         construct fs ns c = Raise e.
Proof.
  intros Hscan Hkw Hdir.
  destruct c as [b rep s cs dev tr kw | b s cs dev tr np sp | ];
    simpl in Hscan; [| |done]; injection Hscan as -> -> ->; simpl in *.
  - apply orb_false_iff in Hkw as [Hrep Hsplit].
    apply negb_false_iff, bool_decide_eq_true in Hrep, Hsplit.
    rewrite (ModelNet_init_scan _ _ _ _ _ _ _ _ entries) by done.
    destruct (scan_categories _ _ _ _ _ _ _) as [r|e0]; simpl;
      (split; [done|]); intros e He; [done | by injection He as ->].
  - apply negb_false_iff, bool_decide_eq_true in Hkw.
    rewrite (ModelNetPointCloud_init_scan _ _ _ _ _ _ _ _ entries) by done.
    destruct (scan_categories _ _ _ _ _ _ _) as [r|e0]; simpl;
      (split; [done|]); intros e He; [done | by injection He as ->].
Qed.

Lemma sample_index_labels_bound fs basedir split cats :
  ∀ idx, Forall (fun l => idx ≤ l < idx + length cats)
           (sample_index fs basedir split idx cats).*2.
Proof.
  intros idx. apply Forall_forall. intros l Hl.
  apply list_elem_of_fmap in Hl as ([p l'] & -> & Hpl). simpl.
  apply sample_index_elem_of in Hpl as (i & cat & -> & Hi & _).
  apply lookup_lt_Some in Hi. lia.
Qed.

Lemma sample_index_labels_sorted fs basedir split cats :
  ∀ idx, StronglySorted le (sample_index fs basedir split idx cats).*2.
Proof.
  induction cats as [|cat rest IH]; intros idx; simpl; [constructor|].
  rewrite fmap_app. apply StronglySorted_app_2; [| |apply IH].
  - intros x1 x2 Hx1 Hx2.
    apply list_elem_of_fmap in Hx1 as (pl & -> & Hpl).
    apply list_elem_of_fmap in Hpl as (q & -> & _). simpl.
    pose proof (sample_index_labels_bound fs basedir split rest (S idx)) as Hb.
    rewrite Forall_forall in Hb. apply Hb in Hx2. lia.
  - generalize (off_files fs basedir split cat). intros l.
    induction l as [|p l IHl]; simpl; constructor; [done|].
    apply Forall_forall. intros x Hx.
    apply list_elem_of_fmap in Hx as (pl & -> & Hpl).
    by apply list_elem_of_fmap in Hpl as (q & -> & _).
Qed.

(** X1: in every object a scanning constructor returns, [paths] and
    [labels] have the same length, which is the length of the data set, and
    every label is a position of [self.categories]. *)
Theorem constructed_index_aligned fs ns (c : ctor_t) (a : adapter_u)
    basedir split categories :
  off_scan c = Some (basedir, split, categories) →
  construct fs ns c = Return a →
  length (adapter_labels a) = length (adapter_paths a)
  ∧ adapter_len a = length (adapter_paths a)
  ∧ Forall (fun l => l < length (adapter_categories a)) (adapter_labels a).
Proof.
  intros Hscan Hc.
  destruct (scanning_construct_Return fs ns c a _ _ _ Hscan Hc)
    as (_ & entries & _ & _ & _ & Hp & Hl).
  rewrite Hp, Hl, !length_fmap. split; [done|]. split.
  - destruct (scanning_construct_inv fs ns c a _ _ _ Hscan Hc)
      as (_ & _ & _ & Hidx & Hlen).
    by rewrite Hlen, Hidx.
  - eapply Forall_impl; [apply sample_index_labels_bound|].
    simpl. intros l. lia.
Qed.

(** X2: the labels of a constructed data set never decrease along the
    index: the samples are grouped by category, in the order of
    [self.categories]. *)
Theorem constructed_labels_sorted fs ns (c : ctor_t) (a : adapter_u)
    basedir split categories :
  off_scan c = Some (basedir, split, categories) →
  construct fs ns c = Return a →
  StronglySorted le (adapter_labels a).
Proof.
  intros Hscan Hc.
  destruct (scanning_construct_Return fs ns c a _ _ _ Hscan Hc)
    as (_ & entries & _ & _ & _ & _ & ->).
  apply sample_index_labels_sorted.
Qed.

(** X3: a scanning constructor returns an object exactly when its
    keywords are supported, the base directory can be listed, and every
    category it is to scan is a directory of that listing. *)
Theorem construct_returns_iff fs ns (c : ctor_t) basedir split categories :
  off_scan c = Some (basedir, split, categories) →
  is_raise (construct fs ns c) = false
  ↔ unsupported_keyword c = false
    ∧ ∃ entries,
        iterdir fs basedir = Return entries
        ∧ Forall (fun cat => cat ∈ avail_categories_of entries)
            (categories_or categories (avail_categories_of entries)).
Proof.
  intros Hscan. split.
  - destruct (construct fs ns c) as [a|] eqn:Hc; [intros _|done].
    destruct (scanning_construct_Return fs ns c a _ _ _ Hscan Hc)
      as (Hkw & entries & Hdir & Hcats & Hall & _).
    split; [done|]. exists entries. by rewrite <- Hcats.
  - intros (Hkw & entries & Hdir & Hall).
    destruct (scanning_construct_scan fs ns c _ _ _ entries Hscan Hkw Hdir)
      as [-> _].
    by rewrite scan_categories_known.
Qed.

(** X4: with supported keywords and a listed base directory, the
    [ValueError] for an unknown category names the first category of the
    list that is no directory of the listing, together with the directory
    names in listing order. *)
Theorem unknown_category_names_first fs ns (c : ctor_t) basedir split
    categories entries bad :
  off_scan c = Some (basedir, split, categories) →
  unsupported_keyword c = false →
  iterdir fs basedir = Return entries →
  first_unknown (avail_categories_of entries)
    (categories_or categories (avail_categories_of entries)) = Some bad →
  construct fs ns c
  = Raise (ValueError (BadClass bad (avail_categories_of entries))).
Proof.
  intros Hscan Hkw Hdir Hbad.
  destruct (scanning_construct_scan fs ns c _ _ _ entries Hscan Hkw Hdir)
    as [_ Hraise].
  apply Hraise. by apply scan_categories_unknown.
Qed.

(** X5: when the base directory cannot be listed, the error of the
    listing is what the constructor raises, whatever the categories are:
    no category is validated before the listing. *)
Theorem listing_error_propagates fs ns (c : ctor_t) basedir split
    categories e :
  off_scan c = Some (basedir, split, categories) →
  unsupported_keyword c = false →
  iterdir fs basedir = Raise e →
  construct fs ns c = Raise e.
Proof.
  intros Hscan Hkw Hdir.
  destruct c as [b rep s cs dev tr kw | b s cs dev tr np sp | ];
    simpl in Hscan; [| |done]; injection Hscan as -> -> ->; simpl in *.
  - unfold ModelNet_init. apply orb_false_iff in Hkw as [-> ->].
    by rewrite Hdir.
  - unfold ModelNetPointCloud_init. rewrite Hkw. by rewrite Hdir.
Qed.

Lemma sample_index_shift fs basedir split cats :
  ∀ n idx, sample_index fs basedir split (n + idx) cats
           = shift_labels n (sample_index fs basedir split idx cats).
Proof.
  unfold shift_labels.
  induction cats as [|cat rest IH]; intros n idx; simpl; [done|].
  rewrite fmap_app, <- list_fmap_compose. f_equal.
  rewrite <- IH. f_equal. lia.
Qed.

Lemma sample_index_app fs basedir split cats1 cats2 :
  ∀ idx, sample_index fs basedir split idx (cats1 ++ cats2)
         = sample_index fs basedir split idx cats1
           ++ sample_index fs basedir split (length cats1 + idx) cats2.
Proof.
  induction cats1 as [|cat rest IH]; intros idx; simpl; [done|].
  rewrite IH, <- app_assoc. do 3 f_equal. lia.
Qed.

(** X6: scanning the concatenation of two non-empty category lists gives
    the data set of the first list followed by the data set of the second
    with its labels moved up by the length of the first; it is constructed
    whenever the two parts are. *)
Theorem concatenated_categories fs ns (c1 c2 c12 : ctor_t) (a1 a2 : adapter_u)
    basedir split cats1 cats2 :
  cats1 ≠ [] → cats2 ≠ [] →
  off_scan c1 = Some (basedir, split, Some cats1) →
  off_scan c2 = Some (basedir, split, Some cats2) →
  off_scan c12 = Some (basedir, split, Some (cats1 ++ cats2)) →
  unsupported_keyword c12 = false →
  construct fs ns c1 = Return a1 →
  construct fs ns c2 = Return a2 →
  ∃ a12 : adapter_u,
    construct fs ns c12 = Return a12
    ∧ adapter_index a12
      = adapter_index a1 ++ shift_labels (length cats1) (adapter_index a2)
    ∧ adapter_len a12 = adapter_len a1 + adapter_len a2.
Proof.
  intros Hne1 Hne2 Hs1 Hs2 Hs12 Hkw Hc1 Hc2.
  destruct (scanning_construct_Return fs ns c1 a1 _ _ _ Hs1 Hc1)
    as (_ & entries & Hdir & Hcats1 & Hall1 & _).
  destruct (scanning_construct_Return fs ns c2 a2 _ _ _ Hs2 Hc2)
    as (_ & entries' & Hdir' & Hcats2 & Hall2 & _).
  assert (entries' = entries) as -> by congruence.
  assert (adapter_categories a1 = cats1) as Hk1
    by (rewrite Hcats1; by destruct cats1).
  assert (adapter_categories a2 = cats2) as Hk2
    by (rewrite Hcats2; by destruct cats2).
  rewrite Hk1 in Hall1. rewrite Hk2 in Hall2.
  assert (categories_or (Some (cats1 ++ cats2)) (avail_categories_of entries)
          = cats1 ++ cats2) as Hor by (by destruct cats1).
  destruct (scanning_construct_scan fs ns c12 _ _ _ entries Hs12 Hkw Hdir)
    as [Hraise _].
  rewrite Hor, scan_categories_known in Hraise
    by (by apply Forall_app).
  destruct (construct fs ns c12) as [a12|] eqn:Hc12; [|done].
  exists a12. split; [done|].
  destruct (scanning_construct_inv fs ns c12 a12 _ _ _ Hs12 Hc12)
    as (entries12 & Hdir12 & Hcats12 & Hidx12 & Hlen12).
  assert (entries12 = entries) as -> by congruence.
  destruct (scanning_construct_inv fs ns c1 a1 _ _ _ Hs1 Hc1)
    as (_ & _ & _ & Hidx1 & Hlen1).
  destruct (scanning_construct_inv fs ns c2 a2 _ _ _ Hs2 Hc2)
    as (_ & _ & _ & Hidx2 & Hlen2).
  assert (adapter_index a12
          = adapter_index a1 ++ shift_labels (length cats1) (adapter_index a2))
    as Hidx.
  { rewrite Hidx12, Hcats12, Hor, sample_index_app, Hidx1, Hidx2, Hk1, Hk2.
    by rewrite sample_index_shift. }
  split; [done|].
  rewrite Hlen12, Hlen1, Hlen2, Hidx, length_app.
  unfold shift_labels. by rewrite length_fmap.
Qed.

End ConstructorExtras.

(** ** Python indexing *)

Lemma py_index_valid {A} (l : list A) (i : Z) :
  valid_index l i → ∃ a, py_index l i = Return a.
Proof.
  unfold valid_index, py_index. intros Hi.
  destruct (Z.ltb_spec i 0).
  - destruct (Z.leb_spec 0 (Z.of_nat (length l) + i)); [|lia].
    destruct (Z.ltb_spec (Z.of_nat (length l) + i) (Z.of_nat (length l))); [|lia].
    simpl. destruct (l !! Z.to_nat (Z.of_nat (length l) + i)) eqn:E; [eauto|].
    apply lookup_ge_None in E. lia.
  - destruct (Z.leb_spec 0 i); [|lia].
    destruct (Z.ltb_spec i (Z.of_nat (length l))); [|lia].
    simpl. destruct (l !! Z.to_nat i) eqn:E; [eauto|].
    apply lookup_ge_None in E. lia.
Qed.

Lemma py_index_invalid {A} (l : list A) (i : Z) :
  ¬ valid_index l i → py_index l i = Raise IndexError.
Proof.
  unfold valid_index, py_index. intros Hi.
  destruct (Z.ltb_spec i 0).
  - destruct (Z.leb_spec 0 (Z.of_nat (length l) + i)); [lia|done].
  - destruct (Z.leb_spec 0 i); [|lia].
    destruct (Z.ltb_spec i (Z.of_nat (length l))); [lia|done].
Qed.

(** The position a valid index stands for. *)
Lemma py_index_lookup {A} (l : list A) (i : Z) a :
  py_index l i = Return a →
  valid_index l i
  ∧ l !! Z.to_nat (if (i <? 0)%Z then Z.of_nat (length l) + i else i)%Z = Some a.
Proof.
  intros H. destruct (decide (valid_index l i)) as [Hv|Hv].
  - split; [done|]. unfold py_index in H.
    destruct ((0 <=? _)%Z && _); [|done].
    by destruct (l !! _) eqn:E; [injection H as ->|].
  - by rewrite py_index_invalid in H.
Qed.

(** Counting from the end: [l[i - len(l)]] is [l[i]]. *)
Lemma py_index_negative {A} (l : list A) (i : Z) :
  (0 <= i < Z.of_nat (length l))%Z →
  py_index l (i - Z.of_nat (length l)) = py_index l i.
Proof.
  intros Hi. unfold py_index.
  destruct (Z.ltb_spec (i - Z.of_nat (length l)) 0); [|lia].
  destruct (Z.ltb_spec i 0); [lia|].
  by replace (Z.of_nat (length l) + (i - Z.of_nat (length l)))%Z with i by lia.
Qed.

Lemma py_index_fmap {A B} (f : A → B) (l : list A) (i : Z) :
  py_index (f <$> l) i = (a <- py_index l i ;; Return (f a)).
Proof.
  unfold py_index. rewrite length_fmap.
  destruct ((0 <=? _)%Z && _); [|done].
  rewrite list_lookup_fmap. by destruct (l !! _).
Qed.

Lemma py_index_from_end {A} (l : list A) (a b c d : A) :
  py_index (l ++ [a; b; c; d]) (-4) = Return a
  ∧ py_index (l ++ [a; b; c; d]) (-1) = Return d.
Proof.
  unfold py_index. rewrite length_app. simpl length.
  destruct (Z.ltb_spec (-4) 0); [|lia]. destruct (Z.ltb_spec (-1) 0); [|lia].
  replace (Z.of_nat (length l + 4) + -4)%Z with (Z.of_nat (length l)) by lia.
  replace (Z.of_nat (length l + 4) + -1)%Z with (Z.of_nat (length l + 3)) by lia.
  destruct (Z.leb_spec 0 (Z.of_nat (length l))); [|lia].
  destruct (Z.ltb_spec (Z.of_nat (length l)) (Z.of_nat (length l + 4))); [|lia].
  destruct (Z.leb_spec 0 (Z.of_nat (length l + 3))); [|lia].
  destruct (Z.ltb_spec (Z.of_nat (length l + 3)) (Z.of_nat (length l + 4))); [|lia].
  simpl. rewrite !Nat2Z.id.
  rewrite lookup_app_r by lia. rewrite Nat.sub_diag. simpl.
  rewrite lookup_app_r by lia.
  by replace (length l + 3 - length l) with 3 by lia.
Qed.

(** ** More on the accesses *)

Section AccessExtras.

Context {Mesh Row Grid Device Gen : Type}.
Variable from_off : Path → result Mesh.
Variable mesh_sample : Mesh → nat → Gen → result (list Row) * Gen.
Variable device_ok : Device → bool.
Variable loadmat : string → result (gmap string Grid).
Variable float_tensor : Grid → result Grid.
Variable platform : string.

Abbreviation modelnet_t := (ModelNet (Mesh := Mesh) (Row := Row) (Grid := Grid)
                              (Device := Device)).
Abbreviation pointcloud_t := (ModelNetPointCloud (Mesh := Mesh) (Row := Row)
                                (Grid := Grid) (Device := Device)).
Abbreviation adapter_v := (adapter (Mesh := Mesh) (Row := Row) (Grid := Grid)
                             (Device := Device)).
Abbreviation world_v := (world (Gen := Gen)).
Abbreviation mn_item := (ModelNet_getitem from_off mesh_sample device_ok).
Abbreviation pc_item := (ModelNetPointCloud_getitem from_off mesh_sample
                           device_ok).
Abbreviation vx_item := (ModelNetVoxels_getitem (Mesh := Mesh) (Row := Row)
                           loadmat float_tensor).
Abbreviation any_item := (adapter_getitem from_off mesh_sample device_ok
                            loadmat float_tensor platform).

(** What [ModelNet.__init__] leaves in the object. *)
Lemma ModelNet_init_Return fs basedir rep split categories (device : Device)
    transform kwargs (self : modelnet_t) :
  ModelNet_init fs basedir rep split categories device transform kwargs
  = Return self →
  (mn_rep self = "mesh" ∨ mn_rep self = "pointcloud")
  ∧ mn_device self = device ∧ mn_transform self = transform
  ∧ length (mn_labels self) = length (mn_paths self)
  ∧ zip (mn_paths self) (mn_labels self)
    = sample_index fs basedir split 0 (mn_categories self).
Proof.
  intros Hinit.
  assert (construct fs (fun _ => None)
            (NewModelNet basedir rep split categories device transform kwargs)
          = Return (AModelNet self)) as Hc by (simpl; by rewrite Hinit).
  destruct (scanning_construct_Return fs _
              (NewModelNet basedir rep split categories device transform kwargs)
              _ basedir split categories eq_refl Hc)
    as (_ & entries & _ & _ & _ & Hp & Hl).
  destruct (scanning_construct_inv fs _
              (NewModelNet basedir rep split categories device transform kwargs)
              _ basedir split categories eq_refl Hc)
    as (_ & _ & _ & Hidx & _).
  simpl in Hp, Hl, Hidx.
  unfold ModelNet_init in Hinit.
  destruct (bool_decide (rep ∈ ["mesh"; "pointcloud"])) eqn:Hrep; [|done].
  apply bool_decide_eq_true in Hrep. simpl in Hinit.
  destruct (negb _); [done|].
  destruct (iterdir fs basedir); [|done]. simpl in Hinit.
  destruct (scan_categories _ _ _ _ _ _ _); [|done].
  injection Hinit as <-. simpl in *.
  split_and!; [|done|done| |done].
  - apply elem_of_cons in Hrep as [->|Hrep]; [by left|].
    apply list_elem_of_singleton in Hrep as ->. by right.
  - by rewrite Hp, Hl, !length_fmap.
Qed.

(** X7: an index outside [-len, len) ends the access with an
    [IndexError] before any file is read: it reaches the caller of
    [ModelNet] and [ModelNetVoxels], and is caught by the handler of
    [ModelNetPointCloud] (for an index with no cache entry); the object and
    the generators are left as they were. *)
Theorem out_of_range_access (a : adapter_v) (w : world_v) (idx : Z) :
  ¬ (- Z.of_nat (adapter_len a) <= idx < Z.of_nat (adapter_len a))%Z →
  uncached a idx →
  any_item a w idx = (out_of_range_outcome a, a, w).
Proof.
  intros Hout Hmiss. destruct a as [self|self|self];
    cbn [adapter_getitem adapter_len out_of_range_outcome uncached] in *.
  - unfold ModelNet_getitem.
    rewrite (py_index_invalid (mn_paths self) idx) by done. simpl.
    by destruct w.
  - rewrite (getitem_load_error from_off mesh_sample device_ok self w idx
               IndexError); [done | done |].
    by rewrite (py_index_invalid (pc_paths self) idx).
  - unfold ModelNetVoxels_getitem.
    by rewrite (py_index_invalid (vx_names self) idx).
Qed.

(** X8: on a constructed [ModelNet], the index [idx - len] stands for the
    same sample as [idx]: the two accesses are the same. *)
Theorem ModelNet_negative_index fs basedir rep split categories
    (device : Device) transform kwargs (self : modelnet_t) (gen : Gen)
    (idx : Z) :
  ModelNet_init fs basedir rep split categories device transform kwargs
  = Return self →
  (0 <= idx < Z.of_nat (ModelNet_len self))%Z →
  mn_item self gen (idx - Z.of_nat (ModelNet_len self)) = mn_item self gen idx.
Proof.
  intros Hinit Hidx.
  apply ModelNet_init_Return in Hinit as (_ & _ & _ & Hlen & _).
  unfold ModelNet_getitem, ModelNet_len in *.
  rewrite py_index_negative by done.
  rewrite <- Hlen. rewrite py_index_negative by lia. done.
Qed.

(** X9: the label a constructed [ModelNet] returns with a sample is the
    position, in [self.categories], of the category in whose directory the
    file of that sample was matched. *)
Theorem ModelNet_label_is_category_position fs basedir rep split categories
    (device : Device) transform kwargs (self : modelnet_t) (gen gen' : Gen)
    (idx : Z) (v : pyval) :
  ModelNet_init fs basedir rep split categories device transform kwargs
  = Return self →
  mn_item self gen idx = (Return v, gen') →
  ∃ sample l path cat,
    v = VTuple [sample; VLongTensor [Z.of_nat l]]
    ∧ py_index (mn_paths self) idx = Return path
    ∧ mn_categories self !! l = Some cat
    ∧ path ∈ off_files fs basedir split cat.
Proof.
  intros Hinit Hitem.
  apply ModelNet_init_Return in Hinit as (_ & _ & _ & Hlen & Hzip).
  assert (∃ sample l path,
            v = VTuple [sample; VLongTensor [Z.of_nat l]]
            ∧ py_index (mn_paths self) idx = Return path
            ∧ py_index (mn_labels self) idx = Return l)
    as (sample & l & path & -> & Hp & Hl).
  { unfold ModelNet_getitem in Hitem.
    destruct (py_index (mn_paths self) idx) as [path|]; [|done]. simpl in Hitem.
    destruct (from_off path) as [mesh|]; [|done]. simpl in Hitem.
    unfold to_device in Hitem.
    destruct (device_ok (mn_device self)); [|done]. simpl in Hitem.
    destruct (py_index (mn_labels self) idx) as [l|]; [|done]. simpl in Hitem.
    destruct (String.eqb (mn_rep self) "mesh").
    { destruct (apply_transform _ _) as [sample|]; [|done]. simpl in Hitem.
      injection Hitem as <- _. by exists sample, l, path. }
    destruct (String.eqb (mn_rep self) "pointcloud"); [|done].
    destruct (mesh_sample _ _ _) as [[pts|] g]; [|done].
    destruct (apply_transform _ _) as [sample|]; [|done]. simpl in Hitem.
    injection Hitem as <- _. by exists sample, l, path. }
  exists sample, l, path. pose proof Hp as Hpath.
  apply py_index_lookup in Hp as [_ Hp], Hl as [_ Hl].
  rewrite Hlen in Hl.
  assert ((path, l) ∈ zip (mn_paths self) (mn_labels self)) as Hin.
  { apply list_elem_of_lookup. eexists. apply lookup_zip_with_Some.
    exists path, l. split_and!; [done | apply Hp | apply Hl]. }
  rewrite Hzip in Hin.
  apply sample_index_elem_of in Hin as (i & cat & -> & Hi & Hcat).
  exists cat. by split_and!.
Qed.

(** X10: on a constructed [ModelNet] without a transform, every valid
    index is served when the libraries play along: if every file of the
    data set loads, the device is accepted and the sampler does not raise,
    the access returns a (sample, label) pair. *)
Theorem ModelNet_valid_access_returns fs basedir rep split categories
    (device : Device) kwargs (self : modelnet_t) (gen : Gen) (idx : Z) :
  ModelNet_init fs basedir rep split categories device None kwargs
  = Return self →
  valid_index (mn_paths self) idx →
  (∀ path, path ∈ mn_paths self → is_raise (from_off path) = false) →
  device_ok device = true →
  (∀ mesh n g, is_raise (mesh_sample mesh n g).1 = false) →
  ∃ sample l gen',
    mn_item self gen idx
    = (Return (VTuple [sample; VLongTensor [Z.of_nat l]]), gen').
Proof.
  intros Hinit Hidx Hload Hdev Hsample.
  apply ModelNet_init_Return in Hinit as (Hrep & Hd & Ht & Hlen & _).
  destruct (py_index_valid _ _ Hidx) as [path Hp].
  assert (valid_index (mn_labels self) idx) as Hidx'
    by (unfold valid_index in *; by rewrite Hlen).
  destruct (py_index_valid _ _ Hidx') as [l Hl].
  assert (path ∈ mn_paths self) as Hin.
  { apply py_index_lookup in Hp as [_ Hp]. by eapply list_elem_of_lookup_2. }
  specialize (Hload path Hin).
  destruct (from_off path) as [mesh|] eqn:Hmesh; [|done].
  unfold ModelNet_getitem, to_device.
  rewrite Hp, Hl. simpl. rewrite Hmesh, Hd, Hdev, Ht. simpl.
  destruct Hrep as [-> | ->]; simpl; [by eexists _, _, _|].
  specialize (Hsample mesh (mn_num_points self) gen).
  destruct (mesh_sample mesh (mn_num_points self) gen) as [[pts|] g]; [|done].
  by eexists _, _, _.
Qed.

(** X11: the first access of an index whose mesh loads and samples stores
    the sampled cloud in the cache under that index, whether or not the
    downsampling, the device placement or the transform that follow
    succeed; torch's generator is advanced by the sampling. *)
Theorem first_access_caches (self : pointcloud_t) (w : world_v) (idx : Z)
    path mesh full_pts gen' :
  pc_sample_cache self !! idx = None →
  py_index (pc_paths self) idx = Return path →
  from_off path = Return mesh →
  mesh_sample mesh (pc_sample_points self) (torch_rng w) = (Return full_pts, gen') →
  pc_sample_cache (pc_item self w idx).1.2
  = <[idx := full_pts]> (pc_sample_cache self)
  ∧ torch_rng (pc_item self w idx).2 = gen'.
Proof.
  intros Hmiss Hpath Hmesh Hsample.
  assert (at_self (try_block from_off mesh_sample device_ok self w idx)
          = set_cache self idx full_pts
          ∧ torch_rng (at_world (try_block from_off mesh_sample device_ok
                                   self w idx)) = gen') as [Hself Hgen].
  { unfold try_block, full_points.
    rewrite Hmiss, Hpath. simpl. rewrite Hmesh, Hsample.
    rewrite downsample_self. split; [done|].
    unfold downsample.
    destruct (np_random_choice _ _ _) as [[idxs|] np']; [|done].
    destruct (index_rows _ _); [|done].
    destruct (to_device _ _ _); [|done].
    by destruct (apply_transform _ _). }
  unfold ModelNetPointCloud_getitem.
  destruct (at_raised _); [by rewrite Hself|].
  by destruct (at_pts _); simpl; rewrite Hself.
Qed.

(** X12: an access of a cached index neither loads the mesh nor samples
    it: the access is the same whatever the mesh reader and the sampler
    are, it leaves the object as it is, and torch's generator is not
    advanced. *)
Theorem cached_access_skips_loading (self : pointcloud_t) (w : world_v)
    (idx : Z) (full_pts : list Row) :
  pc_sample_cache self !! idx = Some full_pts →
  (∀ from_off' mesh_sample',
     ModelNetPointCloud_getitem from_off' mesh_sample' device_ok self w idx
     = pc_item self w idx)
  ∧ (pc_item self w idx).1.2 = self
  ∧ torch_rng (pc_item self w idx).2 = torch_rng w.
Proof.
  intros Hhit.
  assert (∀ from_off' mesh_sample',
            try_block from_off' mesh_sample' device_ok self w idx
            = downsample device_ok self
                {| np_rng := np_rng w; torch_rng := torch_rng w |} full_pts)
    as Htry.
  { intros. unfold try_block, full_points. by rewrite Hhit. }
  split; [|split].
  - intros. unfold ModelNetPointCloud_getitem. by rewrite !Htry.
  - rewrite (getitem_self from_off mesh_sample device_ok), Htry.
    apply downsample_self.
  - unfold ModelNetPointCloud_getitem. rewrite Htry.
    assert (torch_rng (at_world (downsample device_ok self
              {| np_rng := np_rng w; torch_rng := torch_rng w |} full_pts))
            = torch_rng w) as Hgen.
    { unfold downsample.
      destruct (np_random_choice _ _ _) as [[idxs|] np']; [|done].
      destruct (index_rows _ _); [|done].
      destruct (to_device _ _ _); [|done].
      by destruct (apply_transform _ _). }
    destruct (at_raised _); [done|]. by destruct (at_pts _).
Qed.

(** One access adds at most its own index to the cache. *)
Lemma getitem_cache_dom (self : pointcloud_t) (w : world_v) (idx : Z) :
  dom (pc_sample_cache (pc_item self w idx).1.2)
  ⊆ dom (pc_sample_cache self) ∪ {[idx]}.
Proof.
  rewrite (getitem_self from_off mesh_sample device_ok),
    (try_block_self from_off mesh_sample device_ok).
  destruct (full_points from_off mesh_sample self (torch_rng w) idx)
    as [[r self'] gen'] eqn:H.
  apply full_points_spec in H as (_ & _ & Hnew & _). simpl.
  intros i Hi. apply elem_of_dom in Hi as [v Hv].
  destruct (Hnew i v Hv) as [Hold | (-> & _)].
  - apply elem_of_union_l, elem_of_dom. eauto.
  - apply elem_of_union_r. by apply elem_of_singleton.
Qed.

(** X13: the cache holds entries only for indices that were accessed:
    after a run of accesses its keys are among those it had and the
    indices of the run, so it grows by at most one entry per access. *)
Theorem cache_domain_bound (self : pointcloud_t) (w : world_v) (idxs : list Z) :
  dom (pc_sample_cache (accesses from_off mesh_sample device_ok self w idxs).1)
  ⊆ dom (pc_sample_cache self) ∪ list_to_set idxs
  ∧ size (pc_sample_cache
            (accesses from_off mesh_sample device_ok self w idxs).1)
    ≤ size (pc_sample_cache self) + length idxs.
Proof.
  revert self w. induction idxs as [|idx rest IH]; intros self w;
    cbn [accesses length list_to_set foldr fst].
  - split; [apply union_subseteq_l | lia].
  - pose proof (getitem_cache_dom self w idx) as Hstep.
    destruct (pc_item self w idx) as [[o self'] w']. simpl in Hstep.
    destruct (IH self' w') as [Hdom Hsize]. split.
    { intros i Hi. apply Hdom in Hi. apply elem_of_union in Hi as [Hi|Hi].
      - apply Hstep in Hi. apply elem_of_union in Hi as [Hi|Hi].
        + by apply elem_of_union_l.
        + by apply elem_of_union_r, elem_of_union_l.
      - by apply elem_of_union_r, elem_of_union_r. }
    apply subseteq_size in Hstep.
    rewrite size_union_alt, size_dom in Hstep.
    assert (size ({[idx]} ∖ dom (pc_sample_cache self) : gset Z) ≤ 1) as Hone.
    { etrans; [apply subseteq_size, subseteq_difference_l; reflexivity|].
      by rewrite size_singleton. }
    rewrite size_dom in Hstep. lia.
Qed.

(** X14: a cache miss whose mesh cannot be found, loaded or sampled ends
    in the handler with [pts] unassigned and leaves the cache without an
    entry for the index, so the next access of the index tries again. *)
Theorem failed_load_not_cached (self : pointcloud_t) (w : world_v) (idx : Z)
    (e : exn) :
  pc_sample_cache self !! idx = None →
  ((path <- py_index (pc_paths self) idx ;; from_off path) = Raise e
   ∨ ∃ mesh gen',
       (path <- py_index (pc_paths self) idx ;; from_off path) = Return mesh
       ∧ mesh_sample mesh (pc_sample_points self) (torch_rng w)
         = (Raise e, gen')) →
  (pc_item self w idx).1.1 = Breakpoint e None
  ∧ (pc_item self w idx).1.2 = self
  ∧ pc_sample_cache (pc_item self w idx).1.2 !! idx = None.
Proof.
  intros Hmiss Hfail.
  assert ((pc_item self w idx).1.1 = Breakpoint e None
          ∧ (pc_item self w idx).1.2 = self) as [Ho Hs].
  { unfold ModelNetPointCloud_getitem, try_block, full_points. rewrite Hmiss.
    destruct Hfail as [-> | (mesh & gen' & -> & ->)]; by simpl. }
  split_and!; [done | done | by rewrite Hs].
Qed.

End AccessExtras.

(** ** Splitting paths *)

Lemma split_go_length sep s :
  ∀ cur, length (split_go sep s cur) = S (count_char sep s).
Proof.
  induction s as [|c s IH]; intros cur; simpl; [done|].
  destruct (Ascii.eqb c sep); simpl; by rewrite IH.
Qed.

(** Splitting [s1 + sep + s2] splits [s1] and [s2]. *)
Lemma split_go_app sep s1 s2 :
  ∀ cur, split_go sep (s1 +:+ String sep s2) cur
         = split_go sep s1 cur ++ split_go sep s2 [].
Proof.
  induction s1 as [|c s1 IH]; intros cur; simpl.
  - by rewrite Ascii.eqb_refl.
  - destruct (Ascii.eqb c sep); simpl; by rewrite IH.
Qed.

Lemma split_go_no_sep sep s :
  ∀ cur, count_char sep s = 0 →
         split_go sep s cur
         = [string_of_list_ascii (rev cur ++ list_ascii_of_string s)].
Proof.
  induction s as [|c s IH]; intros cur Hc; simpl in *.
  - by rewrite app_nil_r.
  - destruct (Ascii.eqb c sep); [done|]. rewrite IH by done. simpl.
    by rewrite <- app_assoc.
Qed.

Lemma str_split_app sep s1 s2 :
  str_split sep (s1 +:+ String sep s2) = str_split sep s1 ++ str_split sep s2.
Proof. apply split_go_app. Qed.

Lemma str_split_no_sep sep s : count_char sep s = 0 → str_split sep s = [s].
Proof.
  intros Hc. unfold str_split. rewrite split_go_no_sep by done. simpl.
  by rewrite string_of_list_ascii_of_string.
Qed.

(** ** More on [ModelNetVoxels] *)

Section VoxelExtras.

Context {Mesh Row Grid : Type}.
Variable loadmat : string → result (gmap string Grid).
Variable float_tensor : Grid → result Grid.

Abbreviation voxel_item := (ModelNetVoxels_getitem (Mesh := Mesh) (Row := Row)
                              loadmat float_tensor).

(** X15: on a platform whose name starts with 'win', an access is the
    access another platform makes to the same list of names with every
    backslash replaced by a slash: the replaced path is the one that is
    split and the one that is read. *)
Theorem windows_paths_normalised (platform : string) (self : ModelNetVoxels)
    (item : Z) :
  String.prefix "win" platform = true →
  voxel_item platform self item
  = voxel_item "linux"
      {| vx_names := replace_char backslash slash <$> vx_names self |} item.
Proof.
  intros Hwin. unfold ModelNetVoxels_getitem. rewrite Hwin. simpl.
  rewrite py_index_fmap. by destruct (py_index (vx_names self) item).
Qed.

(** X16: off Windows, a stored path with fewer than three slashes has no
    fourth component from the end: the access raises [IndexError], and
    does so before the file is read. *)
Theorem short_path_IndexError (platform : string) (self : ModelNetVoxels)
    (item : Z) (object_path : string) :
  String.prefix "win" platform = false →
  py_index (vx_names self) item = Return object_path →
  count_char slash object_path < 3 →
  voxel_item platform self item = Raise IndexError.
Proof.
  intros Hwin Hpath Hshort. unfold ModelNetVoxels_getitem.
  rewrite Hpath, Hwin. simpl.
  rewrite (py_index_invalid (str_split slash object_path) (-4)); [done|].
  unfold valid_index, str_split. rewrite split_go_length. lia.
Qed.

(** X17: off Windows, for a stored path [pre/class/d1/d2/name] whose
    last four components contain no slash, and a file with an [instance]
    array that converts, the access returns the dictionary with [name] and
    [class] read off the path, whatever the prefix [pre] is. *)
Theorem voxel_attributes_from_path (platform : string) (self : ModelNetVoxels)
    (item : Z) (pre class d1 d2 name : string) mat data voxels :
  String.prefix "win" platform = false →
  count_char slash class = 0 → count_char slash d1 = 0 →
  count_char slash d2 = 0 → count_char slash name = 0 →
  py_index (vx_names self) item
  = Return (pre +:+ "/" +:+ class +:+ "/" +:+ d1 +:+ "/" +:+ d2 +:+ "/" +:+ name) →
  loadmat (pre +:+ "/" +:+ class +:+ "/" +:+ d1 +:+ "/" +:+ d2 +:+ "/" +:+ name)
  = Return mat →
  mat !! "instance" = Some data →
  float_tensor data = Return voxels →
  voxel_item platform self item
  = Return (VDict [ ("attributes", VDict [ ("name", VStr name);
                                           ("class", VStr class) ]);
                    ("data", VDict [ ("voxels", VVoxels voxels) ]) ]).
Proof.
  intros Hwin Hc H1 H2 Hn Hpath Hmat Hinst Hfloat.
  unfold ModelNetVoxels_getitem. rewrite Hpath, Hwin. simpl.
  assert (pre +:+ "/" +:+ class +:+ "/" +:+ d1 +:+ "/" +:+ d2 +:+ "/" +:+ name
          = pre +:+ String slash (class +:+ String slash
              (d1 +:+ String slash (d2 +:+ String slash name)))) as Hshape
    by reflexivity.
  rewrite Hshape in *.
  assert (str_split slash
            (pre +:+ String slash (class +:+ String slash
               (d1 +:+ String slash (d2 +:+ String slash name))))
          = str_split slash pre ++ [class; d1; d2; name]) as ->.
  { rewrite !str_split_app.
    by rewrite (str_split_no_sep slash class), (str_split_no_sep slash d1),
      (str_split_no_sep slash d2), (str_split_no_sep slash name). }
  destruct (py_index_from_end (str_split slash pre) class d1 d2 name)
    as [-> ->]. simpl.
  rewrite Hmat. simpl. rewrite Hinst. simpl. by rewrite Hfloat.
Qed.

End VoxelExtras.

(** ** [ModelNetVoxels.__init__] in a namespace that binds [os] and [glob] *)

Lemma os_path_bound ns os :
  ns "os" = Some (ObjOs os) → os_path ns = Return os.
Proof. intros H. unfold os_path, load_global. by rewrite H. Qed.

Lemma glob_call_bound ns g pattern :
  ns "glob" = Some (ObjGlob g) → glob_call ns pattern = Return (g pattern).
Proof. intros H. unfold glob_call, load_global. by rewrite H. Qed.

Lemma mapM_result_Return {A B} (f : A → B) (l : list A) :
  mapM_result (fun a => Return (f a)) l = Return (f <$> l).
Proof.
  induction l as [|a l IH]; [done|]. cbn [mapM_result bind].
  by rewrite IH.
Qed.

Lemma voxel_scan_known ns g root side train test all_classes categories :
  ns "glob" = Some (ObjGlob g) →
  Forall (fun cat => cat ∈ all_classes) categories →
  ∀ names,
    voxel_scan ns root side train test all_classes categories names
    = Return (names ++ concat (mat_files g root side train test <$> categories)).
Proof.
  intros Hg Hall. induction Hall as [|cat rest Hcat _ IH]; intros names; simpl.
  - by rewrite app_nil_r.
  - rewrite bool_decide_eq_true_2 by done. simpl.
    rewrite !(glob_call_bound ns g) by done. unfold mat_files.
    destruct train, test; simpl; rewrite IH; by rewrite ?app_nil_r, <- ?app_assoc.
Qed.

Lemma voxel_scan_unknown ns g root side train test all_classes categories bad :
  ns "glob" = Some (ObjGlob g) →
  first_unknown all_classes categories = Some bad →
  ∀ names,
    voxel_scan ns root side train test all_classes categories names
    = Raise (AssertionError ("object class " +:+ bad
                             +:+ " not in list of availible classes")).
Proof.
  intros Hg. unfold first_unknown.
  induction categories as [|cat rest IH]; intros Hbad names; simpl in *; [done|].
  rewrite filter_cons in Hbad.
  destruct (decide (cat ∉ all_classes)) as [Hc|Hc].
  - simpl in Hbad. injection Hbad as ->.
    by rewrite bool_decide_eq_false_2.
  - apply dec_stable in Hc. rewrite bool_decide_eq_true_2 by done. simpl.
    rewrite !(glob_call_bound ns g) by done.
    destruct train, test; simpl; by apply IH.
Qed.

Lemma root_check_passes os root train test download :
  root_check os root train test download = true →
  (if negb (os_path_exists os (root +:+ "/ModelNet/")) then
     if negb download then
       Raise (AssertionError "ModelNet is not found, and download is set to False")
     else if negb (train || test) then
       Raise (AssertionError "either train or test must be set to True")
     else Return tt
   else Return tt) = Return tt.
Proof.
  unfold root_check.
  by destruct (os_path_exists os _), download, train, test.
Qed.

(** X18: had the module bound [os] and [glob], a construction that passes
    the root check and asks only for classes found under [volumetric_data]
    would return the names of the matched files category by category, the
    training matches of a category before its test matches, each split
    only if selected. *)
Theorem voxels_init_names ns os g root train test download categories
    single_view :
  ns "os" = Some (ObjOs os) →
  ns "glob" = Some (ObjGlob g) →
  root_check os root train test download = true →
  Forall (fun cat => cat ∈ voxel_classes os g root) categories →
  ModelNetVoxels_init ns root train test download categories single_view
  = Return {| vx_names :=
       concat (mat_files g root (if negb single_view then "" else "_1")
                 train test <$> categories) |}.
Proof.
  intros Hos Hg Hroot Hall. unfold ModelNetVoxels_init.
  rewrite (os_path_bound ns os Hos). cbn [bind].
  rewrite (root_check_passes _ _ _ _ _ Hroot). cbn [bind].
  rewrite (glob_call_bound ns g) by done. cbn [bind].
  rewrite (mapM_result_Return
             (fun c => os_path_basename os (os_path_dirname os c))).
  cbn [bind]. fold (voxel_classes os g root).
  by rewrite (voxel_scan_known ns g) by done.
Qed.

(** X19: had the module bound [os] and [glob], a construction that passes
    the root check would reject the first requested class that is not
    found under [volumetric_data] with an [AssertionError] naming it. *)
Theorem voxels_init_unknown_class ns os g root train test download categories
    single_view bad :
  ns "os" = Some (ObjOs os) →
  ns "glob" = Some (ObjGlob g) →
  root_check os root train test download = true →
  first_unknown (voxel_classes os g root) categories = Some bad →
  ModelNetVoxels_init ns root train test download categories single_view
  = Raise (AssertionError ("object class " +:+ bad
                           +:+ " not in list of availible classes")).
Proof.
  intros Hos Hg Hroot Hbad. unfold ModelNetVoxels_init.
  rewrite (os_path_bound ns os Hos). cbn [bind].
  rewrite (root_check_passes _ _ _ _ _ Hroot). cbn [bind].
  rewrite (glob_call_bound ns g) by done. cbn [bind].
  rewrite (mapM_result_Return
             (fun c => os_path_basename os (os_path_dirname os c))).
  cbn [bind]. fold (voxel_classes os g root).
  by rewrite (voxel_scan_unknown ns g _ _ _ _ _ _ bad).
Qed.

(** X20: had the module bound [os], a construction whose root directory
    is missing would fail an [assert] when [download] is off or when
    neither split is selected, before the name [glob] is evaluated and
    before any category is looked at. *)
Theorem voxels_init_root_check ns os root train test download categories
    single_view :
  ns "os" = Some (ObjOs os) →
  root_check os root train test download = false →
  ModelNetVoxels_init ns root train test download categories single_view
  = Raise (AssertionError
             (if negb download
              then "ModelNet is not found, and download is set to False"
              else "either train or test must be set to True")).
Proof.
  intros Hos Hroot. unfold ModelNetVoxels_init, root_check in *.
  rewrite (os_path_bound ns os Hos). simpl.
  by destruct (os_path_exists os _), download, train, test.
Qed.

(** ** The further properties on the demo data *)

Lemma constructed_index_aligned_witness :
  length (adapter_labels (AModelNet demo_modelnet))
  = length (adapter_paths (AModelNet demo_modelnet))
  ∧ adapter_len (AModelNet demo_modelnet)
    = length (adapter_paths (AModelNet demo_modelnet))
  ∧ Forall (fun l => l < length (adapter_categories (AModelNet demo_modelnet)))
      (adapter_labels (AModelNet demo_modelnet)).
Proof.
  exact (constructed_index_aligned demo_fs demo_installed
           (demo_modelnet_call "mesh" "train" (Some ["desk"; "chair"]))
           (AModelNet demo_modelnet) ["data"] "train" (Some ["desk"; "chair"])
           eq_refl eq_refl).
Defined.

Lemma constructed_labels_sorted_witness :
  StronglySorted le (adapter_labels (AModelNetPointCloud (demo_pointcloud 2 4))).
Proof.
  exact (constructed_labels_sorted demo_fs demo_installed
           (demo_pointcloud_call 2 4)
           (AModelNetPointCloud (demo_pointcloud 2 4))
           ["data"] "train" (Some ["desk"; "chair"]) eq_refl eq_refl).
Defined.

Lemma construct_returns_iff_witness :
  unsupported_keyword (demo_modelnet_call "mesh" "test" (Some ["chair"])) = false
  ∧ ∃ entries,
      iterdir demo_fs ["data"] = Return entries
      ∧ Forall (fun cat => cat ∈ avail_categories_of entries)
          (categories_or (Some ["chair"]) (avail_categories_of entries)).
Proof.
  apply (construct_returns_iff demo_fs demo_installed
           (demo_modelnet_call "mesh" "test" (Some ["chair"]))
           ["data"] "test" (Some ["chair"]) eq_refl).
  reflexivity.
Defined.

Lemma unknown_category_names_first_witness :
  construct demo_fs demo_installed
    (demo_modelnet_call "mesh" "train" (Some ["desk"; "sofa"; "lamp"]))
  = Raise (ValueError (BadClass "sofa" ["chair"; "desk"])).
Proof.
  exact (unknown_category_names_first demo_fs demo_installed
           (demo_modelnet_call "mesh" "train" (Some ["desk"; "sofa"; "lamp"]))
           ["data"] "train" (Some ["desk"; "sofa"; "lamp"]) demo_entries "sofa"
           eq_refl eq_refl eq_refl eq_refl).
Defined.

Lemma listing_error_propagates_witness :
  construct (Mesh := nat) (Row := nat) (Grid := nat) demo_fs demo_installed
    (NewModelNet ["nowhere"] "mesh" "train" (Some ["sofa"]) true None ∅)
  = Raise (OSError ["nowhere"]).
Proof.
  exact (listing_error_propagates demo_fs demo_installed
           (NewModelNet ["nowhere"] "mesh" "train" (Some ["sofa"]) true None ∅)
           ["nowhere"] "train" (Some ["sofa"]) (OSError ["nowhere"])
           eq_refl eq_refl eq_refl).
Defined.

Lemma concatenated_categories_witness :
  ∃ a12,
    construct demo_fs demo_installed (demo_pointcloud_call 2 4) = Return a12
    ∧ adapter_index a12
      = adapter_index (AModelNet demo_modelnet_desk)
        ++ shift_labels 1 (adapter_index (AModelNet demo_modelnet_chair))
    ∧ adapter_len a12
      = adapter_len (AModelNet demo_modelnet_desk)
        + adapter_len (AModelNet demo_modelnet_chair).
Proof.
  apply (concatenated_categories demo_fs demo_installed
           (demo_modelnet_call "mesh" "train" (Some ["desk"]))
           (demo_modelnet_call "pointcloud" "train" (Some ["chair"]))
           (demo_pointcloud_call 2 4)
           (AModelNet demo_modelnet_desk) (AModelNet demo_modelnet_chair)
           ["data"] "train" ["desk"] ["chair"]);
    [discriminate | discriminate | reflexivity..].
Defined.

Lemma out_of_range_access_witness :
  demo_item (AModelNet demo_modelnet) demo_world 3
  = (Propagated IndexError, AModelNet demo_modelnet, demo_world).
Proof.
  apply (out_of_range_access demo_from_off demo_mesh_sample demo_device_ok
           demo_loadmat demo_float_tensor "linux"
           (AModelNet demo_modelnet) demo_world 3).
  - unfold adapter_len, ModelNet_len. simpl length. lia.
  - exact I.
Defined.

Lemma ModelNet_negative_index_witness :
  demo_mn_item demo_modelnet 0 (2 - 3) = demo_mn_item demo_modelnet 0 2.
Proof.
  apply (ModelNet_negative_index demo_from_off demo_mesh_sample demo_device_ok
           demo_fs ["data"] "mesh" "train" (Some ["desk"; "chair"]) true None ∅
           demo_modelnet 0 2).
  - reflexivity.
  - unfold ModelNet_len. simpl length. lia.
Defined.

Lemma ModelNet_label_is_category_position_witness :
  ∃ sample l path cat,
    VTuple [VMesh 4; VLongTensor [1%Z]]
    = VTuple (Mesh := nat) (Row := nat) (Grid := nat)
        [sample; VLongTensor [Z.of_nat l]]
    ∧ py_index (mn_paths demo_modelnet) 1 = Return path
    ∧ mn_categories demo_modelnet !! l = Some cat
    ∧ path ∈ off_files demo_fs ["data"] "train" cat.
Proof.
  apply (ModelNet_label_is_category_position demo_from_off demo_mesh_sample
           demo_device_ok demo_fs ["data"] "mesh" "train"
           (Some ["desk"; "chair"]) true None ∅ demo_modelnet 0 0 1).
  - reflexivity.
  - reflexivity.
Defined.

Lemma ModelNet_valid_access_returns_witness :
  ∃ sample l gen',
    demo_mn_item demo_modelnet_chair 7 (-1)
    = (Return (VTuple [sample; VLongTensor [Z.of_nat l]]), gen').
Proof.
  apply (ModelNet_valid_access_returns demo_from_off demo_mesh_sample
           demo_device_ok demo_fs ["data"] "pointcloud" "train"
           (Some ["chair"]) true ∅ demo_modelnet_chair 7 (-1)).
  - reflexivity.
  - unfold valid_index. simpl. lia.
  - reflexivity.
  - reflexivity.
  - reflexivity.
Defined.

Lemma first_access_caches_witness :
  pc_sample_cache (demo_getitem (demo_pointcloud 3 2) demo_world 0).1.2
  = <[0%Z := [0; 1]]> (pc_sample_cache (demo_pointcloud 3 2))
  ∧ torch_rng (demo_getitem (demo_pointcloud 3 2) demo_world 0).2 = 1.
Proof.
  apply (first_access_caches demo_from_off demo_mesh_sample demo_device_ok
           (demo_pointcloud 3 2) demo_world 0
           (demo_off "desk" "train" "desk_0001.off") 4 [0; 1] 1);
    reflexivity.
Defined.

Lemma cached_access_skips_loading_witness :
  ModelNetPointCloud_getitem demo_unreadable demo_mesh_sample demo_device_ok
    (demo_accesses (demo_pointcloud 2 4) demo_world [0%Z]).1 demo_world 0
  = demo_getitem (demo_accesses (demo_pointcloud 2 4) demo_world [0%Z]).1
      demo_world 0.
Proof.
  destruct (cached_access_skips_loading demo_from_off demo_mesh_sample
              demo_device_ok
              (demo_accesses (demo_pointcloud 2 4) demo_world [0%Z]).1
              demo_world 0 [0; 1; 2; 3]) as [Hany _].
  - vm_compute; reflexivity.
  - exact (Hany demo_unreadable demo_mesh_sample).
Defined.

Lemma failed_load_not_cached_witness :
  (ModelNetPointCloud_getitem (Grid := nat) demo_unreadable demo_mesh_sample
     demo_device_ok (demo_pointcloud 2 4) demo_world 0).1.1
  = Breakpoint (OSError (demo_off "desk" "train" "desk_0001.off")) None
  ∧ (ModelNetPointCloud_getitem (Grid := nat) demo_unreadable demo_mesh_sample
       demo_device_ok (demo_pointcloud 2 4) demo_world 0).1.2
    = demo_pointcloud 2 4
  ∧ pc_sample_cache
      (ModelNetPointCloud_getitem (Grid := nat) demo_unreadable demo_mesh_sample
         demo_device_ok (demo_pointcloud 2 4) demo_world 0).1.2 !! 0%Z
    = None.
Proof.
  apply (failed_load_not_cached demo_unreadable demo_mesh_sample demo_device_ok
           (demo_pointcloud 2 4) demo_world 0).
  - reflexivity.
  - left. reflexivity.
Defined.

Lemma windows_paths_normalised_witness :
  demo_vx_item "win32" demo_voxels_windows 0
  = demo_vx_item "linux"
      {| vx_names := replace_char backslash slash
                       <$> vx_names demo_voxels_windows |} 0.
Proof.
  apply (windows_paths_normalised demo_loadmat demo_float_tensor "win32"
           demo_voxels_windows 0).
  reflexivity.
Defined.

Lemma short_path_IndexError_witness :
  demo_vx_item "linux" {| vx_names := ["train/chair_1.mat"] |} 0
  = Raise IndexError.
Proof.
  apply (short_path_IndexError demo_loadmat demo_float_tensor "linux"
           {| vx_names := ["train/chair_1.mat"] |} 0 "train/chair_1.mat").
  - reflexivity.
  - reflexivity.
  - simpl. lia.
Defined.

Lemma voxel_attributes_from_path_witness :
  demo_vx_item "linux" demo_voxels 0
  = Return (VDict [ ("attributes", VDict [ ("name", VStr "chair_000000182_1.mat");
                                           ("class", VStr "chair") ]);
                    ("data", VDict [ ("voxels", VVoxels 66) ]) ]).
Proof.
  apply (voxel_attributes_from_path demo_loadmat demo_float_tensor "linux"
           demo_voxels 0 "root/ModelNet/volumetric_data" "chair" "30" "train"
           "chair_000000182_1.mat"
           {[ "instance" := 66 ]} 66 66);
    reflexivity.
Defined.

Lemma voxels_init_names_witness :
  ModelNetVoxels_init demo_installed "root" true true true ["chair"] true
  = Return {| vx_names :=
       concat (mat_files demo_glob "root" "_1" true true <$> ["chair"]) |}.
Proof.
  apply (voxels_init_names demo_installed demo_os demo_glob "root" true true
           true ["chair"] true).
  - reflexivity.
  - reflexivity.
  - reflexivity.
  - constructor; [|constructor]. vm_compute. left.
Defined.

Lemma voxels_init_unknown_class_witness :
  ModelNetVoxels_init demo_installed "root" true true true
    ["chair"; "nonexistent"] true
  = Raise (AssertionError
             ("object class " +:+ "nonexistent"
              +:+ " not in list of availible classes")).
Proof.
  apply (voxels_init_unknown_class demo_installed demo_os demo_glob "root" true
           true true ["chair"; "nonexistent"] true "nonexistent");
    reflexivity.
Defined.

Lemma voxels_init_root_check_witness :
  ModelNetVoxels_init demo_only_os "root" true true false ["chair"] true
  = Raise (AssertionError
             "ModelNet is not found, and download is set to False").
Proof.
  apply (voxels_init_root_check demo_only_os demo_os_without_data "root" true
           true false ["chair"] true); reflexivity.
Defined.

(** ** Asking for more points than are sampled *)

Section OversizedRequest.

Context {Mesh Row Grid Device Gen : Type}.
Variable from_off : Path → result Mesh.
Variable mesh_sample : Mesh → nat → Gen → result (list Row) * Gen.
Variable device_ok : Device → bool.

(** X21: a [ModelNetPointCloud] constructed with [num_points] larger than
    [sample_points] (the sampler yielding as many points as it is asked
    for) never returns a sample: every access of every index, cached or
    not, ends in the handler with [pts] unassigned, so that line 173
    raises [UnboundLocalError] to the caller. *)
Theorem oversized_request_never_returns fs basedir split categories
    (device : Device) transform (num_points sample_points : nat)
    (self0 self : ModelNetPointCloud (Mesh := Mesh) (Row := Row) (Grid := Grid))
    (w0 w : world (Gen := Gen)) (before : list Z) (idx : Z) :
  (∀ mesh n gen pts gen',
     mesh_sample mesh n gen = (Return pts, gen') → length pts = n) →
  ModelNetPointCloud_init fs basedir split categories device transform
    num_points sample_points = Return self0 →
  accesses from_off mesh_sample device_ok self0 w0 before = (self, w) →
  sample_points < num_points →
  ∃ e,
    (ModelNetPointCloud_getitem from_off mesh_sample device_ok self w idx).1.1
    = Breakpoint e None
    ∧ out_result
        (ModelNetPointCloud_getitem from_off mesh_sample device_ok self w idx).1.1
      = Raise (UnboundLocalError "pts").
Proof.
  intros Hexact Hinit Hrun Hlt.
  assert (pc_num_points self0 = num_points
          ∧ pc_sample_points self0 = sample_points
          ∧ pc_sample_cache self0 = ∅) as (Hn & Hs & He).
  { unfold ModelNetPointCloud_init in Hinit.
    destruct (negb _); [done|].
    destruct (iterdir fs basedir); [|done]. simpl in Hinit.
    destruct (scan_categories _ _ _ _ _ _ _); [|done].
    by injection Hinit as <-. }
  pose proof (accesses_step from_off mesh_sample device_ok self0 w0 before)
    as [Hobj _].
  pose proof (accesses_cache_sized from_off mesh_sample device_ok self0 w0
                before Hexact) as Hsized.
  rewrite Hrun in Hobj, Hsized. simpl in Hobj, Hsized.
  destruct Hobj as (_&_&_&_&_&Hn'&Hs').
  specialize (Hsized ltac:(by intros ??; rewrite He)).
  pose proof (getitem_cache_sized from_off mesh_sample device_ok self w idx
                Hexact Hsized) as Hafter.
  rewrite getitem_self, try_block_self in Hafter.
  unfold ModelNetPointCloud_getitem, try_block.
  destruct (full_points from_off mesh_sample self (torch_rng w) idx)
    as [[[full_pts|e] self'] gen'] eqn:Hfull; simpl in Hafter.
  - apply full_points_spec in Hfull as ((_&_&_&_&_&Hn''&Hs'') & _ & _ & Hin).
    specialize (Hin full_pts eq_refl). apply Hafter in Hin.
    unfold downsample.
    rewrite np_random_choice_raises by lia. simpl. by eexists.
  - simpl. by eexists.
Qed.

End OversizedRequest.

Lemma oversized_request_never_returns_witness :
  ∃ e,
    (demo_getitem (demo_accesses (demo_pointcloud 3 2) demo_world [0; 1]%Z).1
       (demo_accesses (demo_pointcloud 3 2) demo_world [0; 1]%Z).2 2).1.1
    = Breakpoint e None
    ∧ out_result
        (demo_getitem (demo_accesses (demo_pointcloud 3 2) demo_world [0; 1]%Z).1
           (demo_accesses (demo_pointcloud 3 2) demo_world [0; 1]%Z).2 2).1.1
      = Raise (UnboundLocalError "pts").
Proof.
  apply (oversized_request_never_returns demo_from_off demo_mesh_sample
           demo_device_ok demo_fs ["data"] "train" (Some ["desk"; "chair"])
           true None 3 2 (demo_pointcloud 3 2)
           (demo_accesses (demo_pointcloud 3 2) demo_world [0; 1]%Z).1
           demo_world
           (demo_accesses (demo_pointcloud 3 2) demo_world [0; 1]%Z).2
           [0; 1]%Z 2).
  - exact demo_sampler_exact.
  - reflexivity.
  - reflexivity.
  - lia.
Defined.
